(** * Spacetime visualizer: the sampling functions of the two components

    A shallow embedding of the data-generating closures of the React
    component [SpacetimeVisualizer], in its two versions:

    - [VisualizerV1] : src/spacetime-visualizer.tsx  ([generateData]);
    - [VisualizerV2] : the later version with warp mode and the 3D view
      ([calculateWarpMetric], [generate2DData], [generate3DData]).

    The closures read the component's state hooks; here the state is a record
    passed explicitly.  The arithmetic is written once, against the interface
    [JSNumber] of the operations the source applies to JavaScript Numbers
    (operators, [Math.*], [Number.prototype.toFixed], the string conversion of
    template literals).  Everything that only depends on the shape of the loops,
    on which state each branch reads and on which operations it applies is
    proved for every implementation of that interface.

    Two implementations are given.

    - [Float64] is the one the components run on: IEEE 754 binary64 with
      the kernel's primitive floats, the [Math] functions as ECMA-262
      defines them (the cases the standard fixes are computed, the values
      it leaves to the implementation come from a parameter, the engine),
      and [toFixed] computed on the exact value of the double.  What a
      formula of the component evaluates to is stated here.
    - [RealModel] reads a Number as the real it denotes, with every
      operation exact.  It is the reading of a claim made in exact
      arithmetic, and it is used for what rounding does not change about
      an output: that two strings are equal, that a string has a sign or
      a format, that a value lies within a bound with room to spare, that
      a value which is exact in doubles as well (a zero, 22.5) prints as
      it does.  It does not say which digits a browser prints in general:
      a value on a rounding tie of [toFixed] as a real (2.025, say) is
      stored slightly off the tie as a double, and [Math.exp] returns zero
      where the real exponential is positive and too small for a double. *)

From Stdlib Require Import Floats.
From Stdlib Require Import ZArith List String Ascii Bool Lia.
From Stdlib Require Import Reals Lra Zfloor DecimalString Sorted.
From Equations Require Import Equations.
Import ListNotations.

Set Implicit Arguments.
Open Scope string_scope.
Open Scope list_scope.
Open Scope Z_scope.

(** ** JavaScript Numbers, as far as the components use them *)

Class JSNumber (num : Type) : Type := {
  (** a numeric literal or a loop counter holding an integer *)
  ofZ : Z -> num;
  add : num -> num -> num;
  sub : num -> num -> num;
  mul : num -> num -> num;
  div : num -> num -> num;
  (** unary minus *)
  neg : num -> num;
  (** the relational operator [<] *)
  ltb : num -> num -> bool;
  Math_sqrt : num -> num;
  Math_pow : num -> num -> num;
  Math_exp : num -> num;
  Math_abs : num -> num;
  Math_cos : num -> num;
  Math_sin : num -> num;
  Math_PI : num;
  (** [v.toFixed(fractionDigits)] *)
  toFixed : num -> nat -> string;
  (** the string a Number becomes inside a template literal *)
  toString : num -> string
}.

Declare Scope js_scope.
Delimit Scope js_scope with js.
Infix "+" := add : js_scope.
Infix "-" := sub : js_scope.
Infix "*" := mul : js_scope.
Infix "/" := div : js_scope.
Notation "- a" := (neg a) : js_scope.
Infix "<?" := ltb : js_scope.
Notation "# n" := (ofZ n) (at level 1, format "# n") : js_scope.

(** ** The counting loop

    [for (let i = lo; i <= hi; i++) { body }], the loop of all three
    generators: the counter is an integer, [body] transforms whatever the
    loop mutates (here the array [points]). *)

Equations? for_loop {S : Type} (i hi : Z) (body : Z -> S -> S) (s : S) : S
  by wf (Z.to_nat (hi + 1 - i)) lt :=
  for_loop i hi body s with Z_le_dec i hi := {
    | left _ := for_loop (i + 1) hi body (body i s);
    | right _ := s }.
Proof. lia. Qed.

(** [points.push(p)] *)
Definition push {A : Type} (points : list A) (p : A) : list A := points ++ [p].

(** ** The first version: src/spacetime-visualizer.tsx *)

Module VisualizerV1.
Section Component.
Context {num : Type} {N : JSNumber num}.
Local Open Scope js_scope.

(** The state hooks of the component. *)
Record State : Type := mkState {
  timeValue : num;
  tensorValue : num;
  mode : string            (* 'time' or 'tensor' *)
}.

(** An element of the array [generateData] returns: [{ x, y: y.toFixed(2) }]. *)
Record Point : Type := mkPoint { x : num; y : string }.

Definition generateData (st : State) : list Point :=
  let steps := #20 in
  for_loop (-10) 10 (fun i points =>
    let x := #i in
    let y :=
      if String.eqb (mode st) "time" then
        Math_pow (x - timeValue st) #2 / #10
          * (if timeValue st <? #0 then - #1 else #1)
      else
        tensorValue st * Math_pow x #2 / #10 in
    push points {| x := x; y := toFixed y 2 |}) [].
End Component.
Arguments State num : clear implicits.
Arguments Point num : clear implicits.
End VisualizerV1.

(** ** The second version: warp mode, lambda, and the 3D view *)

Module VisualizerV2.
Section Component.
Context {num : Type} {N : JSNumber num}.
Local Open Scope js_scope.

(** The state hooks the generators read ([mode], [showMath] and
    [animating] only steer the rendering). *)
Record State : Type := mkState {
  timeValue : num;
  tensorValue : num;
  lambdaValue : num;
  warpBubbleStrength : num;
  rotationAngle : num;
  visualMode : string      (* 'time', 'tensor' or 'warp' *)
}.

Record WarpMetric : Type := mkWarpMetric { shape : num; energyDensity : num }.

(** Alcubierre warp metric calculation (simplified) *)
Definition calculateWarpMetric (st : State) (x y : num) : WarpMetric :=
  let R := Math_sqrt (x * x + y * y) in
  let sigma := #2 in
  let thickness := #1 in
  let shape :=
    Math_exp (- Math_pow (R - warpBubbleStrength st * #10) #2
                / (#2 * sigma * sigma)) in
  let energyDensity :=
    - Math_abs (warpBubbleStrength st) * shape / (#8 * Math_PI) in
  {| shape := shape; energyDensity := energyDensity |}.

(** An element of the array [generate2DData] returns. *)
Record Point : Type := mkPoint { x : num; y : string }.

(** Generate 2D data points with warp effects *)
Definition generate2DData (st : State) : list Point :=
  for_loop (-10) 10 (fun i points =>
    let x := #i in
    let y :=
      if String.eqb (visualMode st) "warp" then
        let shape := shape (calculateWarpMetric st x #0) in
        shape * warpBubbleStrength st * #5
      else if String.eqb (visualMode st) "time" then
        Math_pow (x - timeValue st) #2 / #10
          * (if timeValue st <? #0 then - #1 else #1)
        + lambdaValue st * Math_cos (x / #2)
      else
        tensorValue st * Math_pow x #2 / #10
        + lambdaValue st * Math_sin (x / #2) in
    push points {| x := x; y := toFixed y 2 |}) [].

(** The template literal [`${a},${b},${c}`]. *)
Definition template3 (a b c : num) : string :=
  (toString a ++ "," ++ toString b ++ "," ++ toString c)%string.

(** Generate 3D surface data with rotation and warp effects *)
Definition generate3DData (st : State) : list string :=
  let resolution := #20 in
  for_loop (-5) 5 (fun i points =>
    for_loop (-5) 5 (fun j points =>
      let x := #i in
      let y := #j in
      (* Apply rotation *)
      let rad := rotationAngle st * Math_PI / #180 in
      let rotX := x * Math_cos rad - y * Math_sin rad in
      let rotY := x * Math_sin rad + y * Math_cos rad in
      let z :=
        if String.eqb (visualMode st) "warp" then
          let metric := calculateWarpMetric st rotX rotY in
          let shape := shape metric in
          let energyDensity := energyDensity metric in
          shape * warpBubbleStrength st * #5
        else if String.eqb (visualMode st) "time" then
          Math_pow (Math_sqrt (rotX * rotX + rotY * rotY) - timeValue st) #2 / #5
          + lambdaValue st * Math_cos (Math_sqrt (rotX * rotX + rotY * rotY) / #2)
        else
          tensorValue st * (rotX * rotX + rotY * rotY) / #5
          + lambdaValue st * Math_sin (Math_sqrt (rotX * rotX + rotY * rotY) / #2) in
      push points (template3 (x * #20) (y * #20) (z * #20))) points) [].
End Component.
Arguments State num : clear implicits.
Arguments Point num : clear implicits.
Arguments WarpMetric num : clear implicits.
End VisualizerV2.

(** The values the counter takes, in order. *)
Definition zrange (lo hi : Z) : list Z :=
  map (fun k => lo + Z.of_nat k) (seq 0 (Z.to_nat (hi + 1 - lo))).

(** ** The generators without their loops

    The body of each loop as a function of the counters, so that a
    statement can name the element produced at a grid point. *)

Section Unrolled.
Context {num : Type} {N : JSNumber num}.
Local Open Scope js_scope.

Definition point1 (st : VisualizerV1.State num) (i : Z) : VisualizerV1.Point num :=
  let x := #i in
  let y :=
    if String.eqb (VisualizerV1.mode st) "time" then
      Math_pow (x - VisualizerV1.timeValue st) #2 / #10
        * (if VisualizerV1.timeValue st <? #0 then - #1 else #1)
    else
      VisualizerV1.tensorValue st * Math_pow x #2 / #10 in
  {| VisualizerV1.x := x; VisualizerV1.y := toFixed y 2 |}.

(** The factor of the parabola in time mode,
    [timeValue < 0 ? -1 : 1]: minus one below zero, one otherwise. *)
Definition time_sign (t : num) : num := if t <? #0 then - #1 else #1.

(** The number [generate2DData] formats at the grid coordinate [x]. *)
Definition value2D (st : VisualizerV2.State num) (x : num) : num :=
  if String.eqb (VisualizerV2.visualMode st) "warp" then
    let shape := VisualizerV2.shape (VisualizerV2.calculateWarpMetric st x #0) in
    shape * VisualizerV2.warpBubbleStrength st * #5
  else if String.eqb (VisualizerV2.visualMode st) "time" then
    Math_pow (x - VisualizerV2.timeValue st) #2 / #10
      * (if VisualizerV2.timeValue st <? #0 then - #1 else #1)
    + VisualizerV2.lambdaValue st * Math_cos (x / #2)
  else
    VisualizerV2.tensorValue st * Math_pow x #2 / #10
    + VisualizerV2.lambdaValue st * Math_sin (x / #2).

(** The number [z] that [generate3DData] computes at the grid point
    [(x, y)]: the rotation, then the branch on [visualMode]. *)
Definition value3D (st : VisualizerV2.State num) (x y : num) : num :=
  let rad := VisualizerV2.rotationAngle st * Math_PI / #180 in
  let rotX := x * Math_cos rad - y * Math_sin rad in
  let rotY := x * Math_sin rad + y * Math_cos rad in
  if String.eqb (VisualizerV2.visualMode st) "warp" then
    let shape := VisualizerV2.shape (VisualizerV2.calculateWarpMetric st rotX rotY) in
    shape * VisualizerV2.warpBubbleStrength st * #5
  else if String.eqb (VisualizerV2.visualMode st) "time" then
    Math_pow (Math_sqrt (rotX * rotX + rotY * rotY) - VisualizerV2.timeValue st) #2 / #5
    + VisualizerV2.lambdaValue st
      * Math_cos (Math_sqrt (rotX * rotX + rotY * rotY) / #2)
  else
    VisualizerV2.tensorValue st * (rotX * rotX + rotY * rotY) / #5
    + VisualizerV2.lambdaValue st
      * Math_sin (Math_sqrt (rotX * rotX + rotY * rotY) / #2).

Definition point2D (st : VisualizerV2.State num) (i : Z) : VisualizerV2.Point num :=
  {| VisualizerV2.x := #i;
     VisualizerV2.y := toFixed (value2D st #i) 2 |}.

Definition point3D (st : VisualizerV2.State num) (i j : Z) : string :=
  VisualizerV2.template3 (#i * #20) (#j * #20)
                         (value3D st #i #j * #20).
End Unrolled.

(** ** Numbers as real numbers

    The instance of [JSNumber] in which a Number is the real it denotes and
    every operation is exact: the arithmetic of the formulas, not that of
    the machine.  There is no rounding, no overflow or underflow, no NaN
    and no signed zero in this model; where JavaScript would answer NaN (a
    square root of a negative number, a division of zero by zero, a
    fractional power of a negative base) the model has the value of the
    corresponding total function of the library, and none of the generators
    reaches such a case.  The numbers of the components themselves are
    those of [Float64] below. *)

Module RealModel.
Local Open Scope R_scope.

(** The decimal numeral of a natural number, without leading zeros. *)
Definition decimal_digits (n : Z) : string :=
  NilZero.string_of_uint (N.to_uint (Z.to_N n)).

(** The decimal numeral of an integer. *)
Definition int_numeral (z : Z) : string :=
  if (z <? 0)%Z then ("-" ++ decimal_digits (- z))%string else decimal_digits z.

Fixpoint zeros (c : nat) : string :=
  match c with
  | O => EmptyString
  | S c' => String "0" (zeros c')
  end.

(** The last steps of [Number.prototype.toFixed] (ECMA-262): the integer
    [n] (the number of hundredths when [f = 2]) written in fixed notation
    with [f] digits after the point.  [m] is ["0"] or the digits of [n];
    when it has no more than [f] digits it is padded with zeros to [f + 1];
    the point goes before its last [f] digits. *)
Definition fixed_notation (n : Z) (f : nat) : string :=
  let m := if (n =? 0)%Z then "0"%string else decimal_digits n in
  if (f =? 0)%nat then m
  else
    let k := String.length m in
    let m' := if (k <=? f)%nat then (zeros (f + 1 - k) ++ m)%string else m in
    let k' := if (k <=? f)%nat then (f + 1)%nat else k in
    let a := substring 0 (k' - f) m' in
    let b := substring (k' - f) f m' in
    (a ++ "." ++ b)%string.

(** [Number::toString] returns the shortest numeral that reads back as the
    same double; an arbitrary real has no such numeral.  The model fixes
    the case in which that numeral is the decimal numeral of the value, an
    integer of at most [2^53] in size, and leaves every other value to an
    implementation of this class. *)
Class NumberToString : Type := number_to_string : R -> string.

Section Instance.
Context {NTS : NumberToString}.

Definition R_toString (r : R) : string :=
  if Req_dec_T r (IZR (Zfloor r)) then
    if Rle_dec (Rabs r) 9007199254740992 then int_numeral (Zfloor r)
    else number_to_string r
  else number_to_string r.

(** [Number.prototype.toFixed] on the exact value: the sign is split off,
    [n] is the integer nearest to [x * 10^f] (the larger one when two are
    equally near), and values from [10^21] on fall back to [toString]. *)
Definition R_toFixed (x : R) (fractionDigits : nat) : string :=
  let f := fractionDigits in
  let s := if Rlt_dec x 0 then "-"%string else EmptyString in
  let x := if Rlt_dec x 0 then - x else x in
  let m :=
    if Rle_dec (10 ^ 21) x then R_toString x
    else fixed_notation (Zfloor (x * 10 ^ f + / 2)) f in
  (s ++ m)%string.

(** [Math.pow]: an integer exponent is a repeated product (or its
    inverse), any other exponent goes through [exp] and [ln]. *)
Definition R_pow (base exponent : R) : R :=
  if Req_dec_T exponent (IZR (Zfloor exponent))
  then powerRZ base (Zfloor exponent)
  else Rpower base exponent.

Definition R_ltb (a b : R) : bool := if Rlt_dec a b then true else false.

#[export] Instance RNumber : JSNumber R := {|
  ofZ := IZR;
  add := Rplus;
  sub := Rminus;
  mul := Rmult;
  div := Rdiv;
  neg := Ropp;
  ltb := R_ltb;
  Math_sqrt := sqrt;
  Math_pow := R_pow;
  Math_exp := exp;
  Math_abs := Rabs;
  Math_cos := cos;
  Math_sin := sin;
  Math_PI := PI;
  toFixed := R_toFixed;
  toString := R_toString
|}.
End Instance.
End RealModel.

(** ** Numbers as doubles

    The instance of [JSNumber] at IEEE 754 binary64, the Number type of
    ECMA-262.  The operators, [Math.sqrt] and [Math.abs] are the correctly
    rounded operations of the kernel's primitive floats.  [Math.pow],
    [Math.exp], [Math.cos] and [Math.sin] follow the standard case by
    case; their last step, "an implementation-approximated value", is
    taken from the engine.  [toFixed] is computed on the exact value of
    the double, a mantissa times a power of two. *)

Module Float64.
Local Open Scope float_scope.

(** What the standard leaves to the JavaScript engine: the approximated
    results of the four [Math] functions.  [shortest_numeral] stands for
    the shortest numeral that reads back as the same double, which
    [Number::toString] prints for the values this model does not print
    itself (those that are not integers of at most [2^53] in size). *)
Class Engine : Type := {
  approx_pow : float -> float -> float;
  approx_exp : float -> float;
  approx_cos : float -> float;
  approx_sin : float -> float;
  shortest_numeral : float -> string
}.

(** The double nearest to an integer: a numeric literal or a loop
    counter. *)
Definition F_ofZ (z : Z) : float := SF2Prim (binary_normalize prec emax z 0 false).

(** "An integral Number" and "an odd integral Number" of the standard,
    read off the mantissa and the exponent. *)
Definition integral (x : float) : bool :=
  match Prim2SF x with
  | S754_zero _ => true
  | S754_finite _ m e => (0 <=? e)%Z || (Z.pos m mod 2 ^ (- e) =? 0)%Z
  | _ => false
  end.

Definition odd_integral (x : float) : bool :=
  match Prim2SF x with
  | S754_finite _ m e =>
      if (0 <=? e)%Z then (e =? 0)%Z && Z.odd (Z.pos m)
      else (Z.pos m mod 2 ^ (- e) =? 0)%Z && Z.odd (Z.pos m / 2 ^ (- e))
  | _ => false
  end.

Section Instance.
Context {E : Engine}.

(** [Math.pow], that is [Number::exponentiate]. *)
Definition F_pow (base exponent : float) : float :=
  if is_nan exponent then nan
  else if exponent =? 0 then 1
  else if is_nan base then nan
  else
    match Prim2SF base with
    | S754_infinity false => if 0 <? exponent then infinity else 0
    | S754_infinity true =>
        if 0 <? exponent
        then (if odd_integral exponent then neg_infinity else infinity)
        else (if odd_integral exponent then -0 else 0)
    | S754_zero false => if 0 <? exponent then 0 else infinity
    | S754_zero true =>
        if 0 <? exponent
        then (if odd_integral exponent then -0 else 0)
        else (if odd_integral exponent then neg_infinity else infinity)
    | _ =>
        if exponent =? infinity then
          (if 1 <? abs base then infinity else if abs base =? 1 then nan else 0)
        else if exponent =? neg_infinity then
          (if 1 <? abs base then 0 else if abs base =? 1 then nan else infinity)
        else if (base <? 0) && negb (integral exponent) then nan
        else approx_pow base exponent
    end.

Definition F_exp (x : float) : float :=
  if is_nan x || (x =? infinity) then x
  else if x =? 0 then 1
  else if x =? neg_infinity then 0
  else approx_exp x.

Definition F_cos (x : float) : float :=
  if is_nan x || is_infinity x then nan
  else if x =? 0 then 1
  else approx_cos x.

Definition F_sin (x : float) : float :=
  if is_nan x || (x =? 0) then x
  else if is_infinity x then nan
  else approx_sin x.

(** [Math.PI], the double nearest to pi: 3.141592653589793. *)
Definition F_PI : float := 0x1.921fb54442d18p+1.

(** [Number::toString], radix 10. *)
Definition F_toString (x : float) : string :=
  match Prim2SF x with
  | S754_nan => "NaN"
  | S754_zero _ => "0"
  | S754_infinity s => if s then "-Infinity" else "Infinity"
  | S754_finite s m e =>
      if integral x && (abs x <=? 0x1p53) then
        let n := if (0 <=? e)%Z then (Z.pos m * 2 ^ e)%Z else (Z.pos m / 2 ^ (- e))%Z in
        RealModel.int_numeral (if s then - n else n)%Z
      else shortest_numeral x
  end.

(** [Number.prototype.toFixed].  A double that is not finite is printed
    by [toString]; so is one of size [10^21] or more, after its sign.
    Otherwise [n] is the integer nearest to [|x| * 10^f], the larger one
    when two are equally near, and [x] is the mantissa [m] times [2^e]. *)
Definition F_toFixed (x : float) (fractionDigits : nat) : string :=
  let f := fractionDigits in
  match Prim2SF x with
  | S754_nan | S754_infinity _ => F_toString x
  | S754_zero _ => RealModel.fixed_notation 0 f
  | S754_finite s m e =>
      let sgn := if s then "-" else "" in
      let large :=
        if (0 <=? e)%Z then (10 ^ 21 <=? Z.pos m * 2 ^ e)%Z
        else (10 ^ 21 * 2 ^ (- e) <=? Z.pos m)%Z in
      if large then sgn ++ F_toString (abs x)
      else
        let n :=
          if (0 <=? e)%Z then (Z.pos m * 2 ^ e * 10 ^ Z.of_nat f)%Z
          else ((2 * Z.pos m * 10 ^ Z.of_nat f + 2 ^ (- e)) / 2 ^ (- e + 1))%Z in
        sgn ++ RealModel.fixed_notation n f
  end.

#[export] Instance Double : JSNumber float := {|
  ofZ := F_ofZ;
  add := PrimFloat.add;
  sub := PrimFloat.sub;
  mul := PrimFloat.mul;
  div := PrimFloat.div;
  neg := PrimFloat.opp;
  ltb := PrimFloat.ltb;
  Math_sqrt := PrimFloat.sqrt;
  Math_pow := F_pow;
  Math_exp := F_exp;
  Math_abs := PrimFloat.abs;
  Math_cos := F_cos;
  Math_sin := F_sin;
  Math_PI := F_PI;
  toFixed := F_toFixed;
  toString := F_toString
|}.
End Instance.

(** [===] between two doubles. *)
Definition strict_eq (a b : float) : bool := (a =? b).
End Float64.

(** ** Reading the generators' outputs *)

(** The [y] of the first element whose [x] is [xv]. *)
Definition y_at (points : list (VisualizerV2.Point R)) (xv : R) : option string :=
  option_map (@VisualizerV2.y R)
    (find (fun p => if Req_dec_T (VisualizerV2.x p) xv then true else false) points).

(** The sign factor of the time-mode formula: [-1] below zero, [+1] from
    zero on. *)
Definition sign (t : R) : R := if Rlt_dec t 0 then (-1)%R else 1%R.

Definition is_digit (c : ascii) : bool :=
  (48 <=? nat_of_ascii c)%nat && (nat_of_ascii c <=? 57)%nat.

Fixpoint all_digits (s : string) : bool :=
  match s with
  | EmptyString => true
  | String c s' => is_digit c && all_digits s'
  end.

(** One or more digits, a point, exactly two digits. *)
Fixpoint two_decimal_unsigned (seen_digit : bool) (s : string) : bool :=
  match s with
  | EmptyString => false
  | String c s' =>
      if is_digit c then two_decimal_unsigned true s'
      else if Ascii.eqb c "." then
        seen_digit &&
        match s' with
        | String d1 (String d2 EmptyString) => is_digit d1 && is_digit d2
        | _ => false
        end
      else false
  end.

(** A number printed with two decimals, with a minus sign or without. *)
Definition is_two_decimal (s : string) : bool :=
  match s with
  | String "-" s' => two_decimal_unsigned false s'
  | _ => two_decimal_unsigned false s
  end.

(** The slider ranges of the component: the values its state can hold. *)
Definition in_range (st : VisualizerV2.State R) : Prop :=
  (-10 <= VisualizerV2.timeValue st <= 10)%R /\
  (-10 <= VisualizerV2.tensorValue st <= 10)%R /\
  (-5 <= VisualizerV2.lambdaValue st <= 5)%R /\
  (-10 <= VisualizerV2.warpBubbleStrength st <= 10)%R /\
  (0 <= VisualizerV2.rotationAngle st < 360)%R.

(** The comma-separated fields of a string, as [point.split(',')] reads
    them back in the component's render. *)
Fixpoint fields_from (current : string) (s : string) : list string :=
  match s with
  | EmptyString => [current]
  | String c s' =>
      if Ascii.eqb c "," then current :: fields_from EmptyString s'
      else fields_from (current ++ String c EmptyString)%string s'
  end.

Definition fields (s : string) : list string := fields_from EmptyString s.

(** The two outputs of the 2D generators, as pairs, to compare the two
    versions of the component. *)
Definition pairs1 {num : Type} (points : list (VisualizerV1.Point num)) : list (num * string) :=
  map (fun p => (VisualizerV1.x p, VisualizerV1.y p)) points.

Definition pairs2 {num : Type} (points : list (VisualizerV2.Point num)) : list (num * string) :=
  map (fun p => (VisualizerV2.x p, VisualizerV2.y p)) points.

(** A record of the 3D generator exposes three numbers when their string
    conversions are among its comma-separated fields. *)
Definition exposes {num : Type} {N : JSNumber num} (record : string) (a b c : num) : Prop :=
  In (toString a) (fields record) /\
  In (toString b) (fields record) /\
  In (toString c) (fields record).

(** Every record of the 3D generator exposes the raw triple [(i, j, z)] of
    its grid point and the scaled triple [(20 i, 20 j, 20 z)]. *)
Definition exposes_raw_and_scaled {num : Type} {N : JSNumber num}
    (st : VisualizerV2.State num) : Prop :=
  forall i j : Z, -5 <= i <= 5 -> -5 <= j <= 5 ->
  exists record : string,
    nth_error (VisualizerV2.generate3DData st) (Z.to_nat ((i + 5) * 11 + (j + 5)))
      = Some record
    /\ exposes record (ofZ i) (ofZ j) (value3D st (ofZ i) (ofZ j))
    /\ exposes record (mul (ofZ i) (ofZ 20)) (mul (ofZ j) (ofZ 20))
                      (mul (value3D st (ofZ i) (ofZ j)) (ofZ 20)).

(** An implementation of [NumberToString] with nothing to say: for closed
    examples, whose numbers are integers and never reach it. *)
Definition no_numeral : RealModel.NumberToString := fun _ => EmptyString.

(** An engine with nothing to say: it answers NaN where the standard
    asks for an approximated value and prints no numeral.  For closed
    instances of theorems that hold for every engine. *)
Definition silent_engine : Float64.Engine := {|
  Float64.approx_pow := fun _ _ => PrimFloat.nan;
  Float64.approx_exp := fun _ => PrimFloat.nan;
  Float64.approx_cos := fun _ => PrimFloat.nan;
  Float64.approx_sin := fun _ => PrimFloat.nan;
  Float64.shortest_numeral := fun _ => EmptyString
|}.

(** ** The rest of the first version: mode buttons, slider and alert *)

Section V1Interface.
Context {num : Type} {N : JSNumber num}.
Local Open Scope js_scope.

(** [parseFloat], which reads the slider's [e.target.value]. *)
Variable parseFloat : string -> num.

(** [===] between two Numbers. *)
Variable strict_eq : num -> num -> bool.

(** The setters of the three state hooks. *)
Definition setTimeValue (st : VisualizerV1.State num) (v : num) : VisualizerV1.State num :=
  VisualizerV1.mkState v (VisualizerV1.tensorValue st) (VisualizerV1.mode st).

Definition setTensorValue (st : VisualizerV1.State num) (v : num) : VisualizerV1.State num :=
  VisualizerV1.mkState (VisualizerV1.timeValue st) v (VisualizerV1.mode st).

Definition setMode (st : VisualizerV1.State num) (m : string) : VisualizerV1.State num :=
  VisualizerV1.mkState (VisualizerV1.timeValue st) (VisualizerV1.tensorValue st) m.

(** The [value] attribute of the slider, which is also the number shown
    beside it: [mode === 'time' ? timeValue : tensorValue]. *)
Definition sliderValue (st : VisualizerV1.State num) : num :=
  if String.eqb (VisualizerV1.mode st) "time"
  then VisualizerV1.timeValue st
  else VisualizerV1.tensorValue st.

(** The [onChange] handler of the slider. *)
Definition sliderOnChange (st : VisualizerV1.State num) (value : string) : VisualizerV1.State num :=
  if String.eqb (VisualizerV1.mode st) "time"
  then setTimeValue st (parseFloat value)
  else setTensorValue st (parseFloat value).

(** The text of the alert under the chart.  [a > 0] is [0 < a]: the
    language defines [>] as [<] with the operands exchanged. *)
Definition alertDescription (st : VisualizerV1.State num) : string :=
  if String.eqb (VisualizerV1.mode st) "time" then
    if strict_eq (VisualizerV1.timeValue st) #0 then
      "At t=0, this represents the 'present moment' in our reference frame. The spacetime curvature is symmetric."
    else if #0 <? VisualizerV1.timeValue st then
      "Positive time values represent the future, showing how spacetime curves forward."
    else
      "Negative time values represent the past, showing how spacetime curves backward."
  else
    if strict_eq (VisualizerV1.tensorValue st) #0 then
      "When T=0, this represents empty space with no stress-energy content."
    else if #0 <? VisualizerV1.tensorValue st then
      "Positive tensor values represent normal matter and energy, causing attractive gravity."
    else
      "Negative tensor values represent exotic matter, potentially causing repulsive gravity.".
End V1Interface.

(** ** The rest of the second version: auto-rotation and the 3D render *)

(** Auto-rotation effect: the updater [angle => (angle + 1) % 360] that
    each animation frame passes to [setRotationAngle].  The angle starts
    at 0 and this updater is its only writer, so it is an integer; on
    integers [%] is the remainder of the division that truncates. *)
Definition nextRotationAngle (angle : Z) : Z := Z.rem (angle + 1) 360.

(** The attributes of a [<circle>] of the 3D view. *)
Module SvgCircle.
Record t (num : Type) : Type := mk { cx : num; cy : num; r : string; fill : string }.
Arguments mk {num} _ _ _ _.
Arguments cx {num} _.
Arguments cy {num} _.
Arguments r {num} _.
Arguments fill {num} _.
End SvgCircle.

Section Render.
Context {num : Type} {N : JSNumber num}.
Local Open Scope js_scope.

(** [Number], applied to a string. *)
Variable Number : string -> num.

(** The callback that the render maps over [generate3DData()]:
    [const [x, y, z] = point.split(',').map(Number)], then the circle.
    A string with fewer than three fields, for which the script would go
    on with [undefined], has no circle here. *)
Definition renderPoint (st : VisualizerV2.State num) (point : string)
  : option (SvgCircle.t num) :=
  match map Number (fields point) with
  | x :: y :: z :: _ =>
      Some {| SvgCircle.cx := x - y / #2;
              SvgCircle.cy := y / #2 + z;
              SvgCircle.r := "1";
              SvgCircle.fill :=
                if String.eqb (VisualizerV2.visualMode st) "warp" then
                  ("hsl(" ++ toString (#240 + z) ++ ", 70%, "
                   ++ toString (#50 + VisualizerV2.warpBubbleStrength st * #5)
                   ++ "%)")%string
                else
                  ("hsl(" ++ toString (#240 + z) ++ ", 70%, 50%)")%string |}
  | _ => None
  end.

Definition renderSurface (st : VisualizerV2.State num) : list (option (SvgCircle.t num)) :=
  map (renderPoint st) (VisualizerV2.generate3DData st).
End Render.

(** ** Reading more of the outputs *)

(** [===] on reals. *)
Definition R_strict_eq (a b : R) : bool := if Req_dec_T a b then true else false.

(** The [y] of the first element of the first version's output whose [x]
    is [xv]. *)
Definition y_at1 (points : list (VisualizerV1.Point R)) (xv : R) : option string :=
  option_map (@VisualizerV1.y R)
    (find (fun p => if Req_dec_T (VisualizerV1.x p) xv then true else false) points).

(** A numeral that starts with a minus sign. *)
Definition leading_minus (s : string) : bool :=
  match s with
  | String "-" _ => true
  | _ => false
  end.

Fixpoint no_comma (s : string) : bool :=
  match s with
  | EmptyString => true
  | String c s' => negb (Ascii.eqb c ",") && no_comma s'
  end.

(** A reader of decimal integer numerals, to stand for [Number] in closed
    examples. *)
Definition integer_Number (s : string) : R :=
  IZR (match NilZero.int_of_string s with
       | Some d => Z.of_int d
       | None => 0
       end).

(** The same reader, to doubles. *)
Definition integer_Number64 (s : string) : float :=
  Float64.F_ofZ (match NilZero.int_of_string s with
                 | Some d => Z.of_int d
                 | None => 0
                 end).

(** * Facts *)

(** ** The executable parts on small inputs *)

Example for_loop_counts_up :
  for_loop (-2) 2 (fun i points => push points i) [] = [-2; -1; 0; 1; 2].
Proof. reflexivity. Qed.

Example for_loop_empty_range :
  for_loop 3 2 (fun i points => push points i) [7] = [7].
Proof. reflexivity. Qed.

Example zrange_2D : zrange (-10) 10 =
  [-10; -9; -8; -7; -6; -5; -4; -3; -2; -1; 0; 1; 2; 3; 4; 5; 6; 7; 8; 9; 10].
Proof. reflexivity. Qed.

Example fixed_notation_examples :
  RealModel.fixed_notation 2250 2 = "22.50"
  /\ RealModel.fixed_notation 0 2 = "0.00"
  /\ RealModel.fixed_notation 5 2 = "0.05"
  /\ RealModel.fixed_notation 90 2 = "0.90"
  /\ RealModel.fixed_notation 12345 2 = "123.45"
  /\ RealModel.fixed_notation 42 0 = "42".
Proof. repeat split. Qed.

Example int_numeral_examples :
  RealModel.int_numeral (-100) = "-100"
  /\ RealModel.int_numeral 0 = "0"
  /\ RealModel.int_numeral 60 = "60".
Proof. repeat split. Qed.

Example is_two_decimal_examples :
  is_two_decimal "22.50" = true
  /\ is_two_decimal "-0.00" = true
  /\ is_two_decimal "1e+21" = false
  /\ is_two_decimal "NaN" = false
  /\ is_two_decimal "5" = false
  /\ is_two_decimal ".50" = false
  /\ is_two_decimal "0.5" = false.
Proof. repeat split. Qed.

Example fields_examples :
  fields "-100,-100,0" = ["-100"; "-100"; "0"]
  /\ fields "" = [""]
  /\ fields "1,,2" = ["1"; ""; "2"].
Proof. repeat split. Qed.

(** ** What the counting loop computes *)

Lemma for_loop_step {S : Type} (i hi : Z) (body : Z -> S -> S) (s : S) :
  for_loop i hi body s =
  if i <=? hi then for_loop (i + 1) hi body (body i s) else s.
Proof.
  rewrite (for_loop_equation_1 i hi body s).
  destruct (Z_le_dec i hi) as [Hle | Hgt]; cbn.
  - destruct (Z.leb_spec i hi); [reflexivity | lia].
  - destruct (Z.leb_spec i hi); [lia | reflexivity].
Qed.

Lemma zrange_empty (lo hi : Z) : hi < lo -> zrange lo hi = [].
Proof.
  intros H. unfold zrange.
  replace (Z.to_nat (hi + 1 - lo)) with 0%nat by lia. reflexivity.
Qed.

Lemma zrange_cons (lo hi : Z) : lo <= hi -> zrange lo hi = lo :: zrange (lo + 1) hi.
Proof.
  intros H. unfold zrange.
  replace (Z.to_nat (hi + 1 - lo)) with (S (Z.to_nat (hi + 1 - (lo + 1)))) by lia.
  cbn [seq map]. f_equal; [lia |].
  rewrite <- seq_shift, map_map.
  apply map_ext. intros k. lia.
Qed.

Lemma zrange_length (lo hi : Z) : List.length (zrange lo hi) = Z.to_nat (hi + 1 - lo).
Proof. unfold zrange. now rewrite length_map, length_seq. Qed.

Lemma zrange_nth_error (lo hi : Z) (k : nat) :
  (k < Z.to_nat (hi + 1 - lo))%nat ->
  nth_error (zrange lo hi) k = Some (lo + Z.of_nat k).
Proof.
  intros H. unfold zrange.
  rewrite nth_error_map, nth_error_seq.
  apply Nat.ltb_lt in H. now rewrite H.
Qed.

(** A loop whose body only appends to the array it is given returns the
    initial array followed by what each round appended, in counter order. *)
Lemma for_loop_append {A : Type} (hi : Z) (body : Z -> list A -> list A)
      (h : Z -> list A) :
  (forall i points, body i points = points ++ h i) ->
  forall (n : nat) (lo : Z) (points : list A),
    Z.to_nat (hi + 1 - lo) = n ->
    for_loop lo hi body points = points ++ flat_map h (zrange lo hi).
Proof.
  intros Hbody n. induction n as [| n IH]; intros lo points Hn.
  - rewrite for_loop_step.
    replace (lo <=? hi) with false by (symmetry; apply Z.leb_gt; lia).
    rewrite zrange_empty by lia. cbn. now rewrite app_nil_r.
  - rewrite for_loop_step.
    replace (lo <=? hi) with true by (symmetry; apply Z.leb_le; lia).
    rewrite (IH (lo + 1)) by lia.
    rewrite Hbody, (@zrange_cons lo hi) by lia. cbn [flat_map].
    now rewrite app_assoc.
Qed.

Lemma for_loop_push {A : Type} (lo hi : Z) (f : Z -> A) (points : list A) :
  for_loop lo hi (fun i points => push points (f i)) points =
  points ++ map f (zrange lo hi).
Proof.
  unfold push.
  rewrite (@for_loop_append A hi _ (fun i => [f i]) (fun _ _ => eq_refl)
             (Z.to_nat (hi + 1 - lo)) lo points eq_refl).
  apply (f_equal (app points)).
  induction (zrange lo hi) as [| a l IHl]; cbn; [reflexivity | now rewrite IHl].
Qed.

Lemma for_loop_push2 {A : Type} (lo hi lo' hi' : Z) (g : Z -> Z -> A) :
  for_loop lo hi (fun i points =>
    for_loop lo' hi' (fun j points => push points (g i j)) points) [] =
  flat_map (fun i => map (g i) (zrange lo' hi')) (zrange lo hi).
Proof.
  assert (Hrow : forall i points,
             for_loop lo' hi' (fun j points => push points (g i j)) points =
             points ++ map (g i) (zrange lo' hi'))
    by (intros i points; apply for_loop_push).
  exact (@for_loop_append A hi
           (fun i points => for_loop lo' hi' (fun j points => push points (g i j)) points)
           (fun i => map (g i) (zrange lo' hi')) Hrow
           (Z.to_nat (hi + 1 - lo)) lo [] eq_refl).
Qed.

(** Rows of equal length laid one after the other: the element at
    [r * w + c] is the element [c] of row [r]. *)
Lemma nth_error_flat_map_rows {A B : Type} (f : A -> list B) (w : nat) (l : list A) :
  (forall a, List.length (f a) = w) ->
  forall (r c : nat), (c < w)%nat ->
    nth_error (flat_map f l) (r * w + c) =
    match nth_error l r with
    | Some a => nth_error (f a) c
    | None => None
    end.
Proof.
  intros Hw. induction l as [| a l IH]; intros r c Hc.
  - cbn. destruct r; now rewrite ?nth_error_nil.
  - cbn [flat_map]. destruct r as [| r].
    + cbn [Nat.mul Nat.add nth_error].
      rewrite nth_error_app1 by (rewrite Hw; exact Hc). reflexivity.
    + rewrite nth_error_app2 by (rewrite Hw; lia).
      rewrite Hw. replace (S r * w + c - w)%nat with (r * w + c)%nat by lia.
      cbn [nth_error]. now apply IH.
Qed.

Lemma length_flat_map_rows {A B : Type} (f : A -> list B) (w : nat) (l : list A) :
  (forall a, List.length (f a) = w) -> List.length (flat_map f l) = (List.length l * w)%nat.
Proof.
  intros Hw. induction l as [| a l IH]; cbn; [reflexivity |].
  now rewrite length_app, Hw, IH.
Qed.

Section UnrolledFacts.
Context {num : Type} {N : JSNumber num}.

Lemma generateData_map (st : VisualizerV1.State num) :
  VisualizerV1.generateData st = map (point1 st) (zrange (-10) 10).
Proof. exact (for_loop_push (-10) 10 (point1 st) []). Qed.

Lemma generate2DData_map (st : VisualizerV2.State num) :
  VisualizerV2.generate2DData st = map (point2D st) (zrange (-10) 10).
Proof. exact (for_loop_push (-10) 10 (point2D st) []). Qed.

Lemma generate3DData_rows (st : VisualizerV2.State num) :
  VisualizerV2.generate3DData st =
  flat_map (fun i => map (point3D st i) (zrange (-5) 5)) (zrange (-5) 5).
Proof.
  exact (for_loop_push2 (-5) 5 (-5) 5 (point3D st)).
Qed.
End UnrolledFacts.

(** ** Shape of the outputs, for every implementation of Numbers *)

Lemma zrange_In (lo hi i : Z) : lo <= i <= hi -> In i (zrange lo hi).
Proof.
  intros H. apply (nth_error_In _ (Z.to_nat (i - lo))).
  rewrite zrange_nth_error by lia. f_equal. lia.
Qed.

Section GeneratorShape.
Context {num : Type} {N : JSNumber num}.
Local Open Scope js_scope.

Lemma generate2DData_nth (st : VisualizerV2.State num) (k : nat) :
  (k < 21)%nat ->
  nth_error (VisualizerV2.generate2DData st) k = Some (point2D st (-10 + Z.of_nat k)).
Proof.
  intros Hk. rewrite generate2DData_map, nth_error_map.
  now rewrite zrange_nth_error by (cbn; lia).
Qed.

Lemma generate2DData_at (st : VisualizerV2.State num) (i : Z) :
  (-10 <= i <= 10)%Z ->
  nth_error (VisualizerV2.generate2DData st) (Z.to_nat (i + 10)) = Some (point2D st i).
Proof.
  intros Hi. rewrite generate2DData_nth by lia. f_equal. f_equal. lia.
Qed.

Lemma generate3DData_length (st : VisualizerV2.State num) :
  List.length (VisualizerV2.generate3DData st) = 121%nat.
Proof.
  rewrite generate3DData_rows.
  rewrite (length_flat_map_rows _ (w := 11)).
  - now rewrite zrange_length.
  - intros a. now rewrite length_map, zrange_length.
Qed.

Lemma generate3DData_nth (st : VisualizerV2.State num) (i_index j_index : nat) :
  (i_index <= 10)%nat -> (j_index <= 10)%nat ->
  nth_error (VisualizerV2.generate3DData st) (i_index * 11 + j_index) =
  Some (point3D st (-5 + Z.of_nat i_index) (-5 + Z.of_nat j_index)).
Proof.
  intros Hi Hj. rewrite generate3DData_rows.
  rewrite (nth_error_flat_map_rows _ (w := 11)).
  - rewrite zrange_nth_error by (cbn; lia).
    rewrite nth_error_map.
    now rewrite zrange_nth_error by (cbn; lia).
  - intros a. now rewrite length_map, zrange_length.
  - lia.
Qed.
End GeneratorShape.

(** ** Strings of digits *)

Section Digits.
Import RealModel.

Lemma all_digits_app (s1 s2 : string) :
  all_digits (s1 ++ s2) = all_digits s1 && all_digits s2.
Proof.
  induction s1 as [| c s1 IH]; cbn; [reflexivity |].
  now rewrite IH, andb_assoc.
Qed.

Lemma all_digits_zeros (c : nat) : all_digits (zeros c) = true.
Proof. induction c as [| c IH]; cbn; [reflexivity | exact IH]. Qed.

Lemma all_digits_string_of_uint (d : Decimal.uint) :
  all_digits (NilEmpty.string_of_uint d) = true.
Proof. induction d; cbn; auto. Qed.

Lemma all_digits_decimal_digits (n : Z) : all_digits (decimal_digits n) = true.
Proof.
  unfold decimal_digits, NilZero.string_of_uint.
  destruct (N.to_uint (Z.to_N n)) eqn:E; try reflexivity;
    rewrite <- E; apply all_digits_string_of_uint.
Qed.

Lemma decimal_digits_nonempty (n : Z) : (0 < String.length (decimal_digits n))%nat.
Proof.
  unfold decimal_digits, NilZero.string_of_uint.
  destruct (N.to_uint (Z.to_N n)); cbn; lia.
Qed.

Lemma length_zeros (c : nat) : String.length (zeros c) = c.
Proof. induction c as [| c IH]; cbn; [reflexivity | now rewrite IH]. Qed.

Lemma length_append (s1 s2 : string) :
  String.length (s1 ++ s2) = (String.length s1 + String.length s2)%nat.
Proof. induction s1 as [| c s1 IH]; cbn; [reflexivity | now rewrite IH]. Qed.

(** Cutting a string of digits two places before its end gives a
    two-decimal numeral. *)
Lemma two_decimal_cut (j : nat) :
  forall (s : string) (seen : bool),
    all_digits s = true ->
    String.length s = (j + 2)%nat ->
    (seen = true \/ (0 < j)%nat) ->
    two_decimal_unsigned seen (substring 0 j s ++ "." ++ substring j 2 s) = true.
Proof.
  induction j as [| j IH]; intros s seen Hd Hlen Hseen.
  - destruct Hseen as [-> | Hj]; [| lia].
    destruct s as [| c [| d [| e s]]]; cbn in Hlen; try lia.
    cbn in Hd. apply andb_true_iff in Hd as [Hc Hd].
    rewrite andb_true_r in Hd.
    cbn. now rewrite Hc, Hd.
  - destruct s as [| c s]; [cbn in Hlen; lia |].
    cbn in Hd. apply andb_true_iff in Hd as [Hc Hs].
    cbn [substring append two_decimal_unsigned]. rewrite Hc.
    cbn in Hlen. apply IH; [exact Hs | lia | now left].
Qed.

Lemma fixed_notation_two_decimal (n : Z) :
  two_decimal_unsigned false (fixed_notation n 2) = true.
Proof.
  unfold fixed_notation. cbn [Nat.eqb].
  set (m := if (n =? 0)%Z then "0" else decimal_digits n).
  assert (Hm : all_digits m = true).
  { subst m. destruct (n =? 0)%Z; [reflexivity | apply all_digits_decimal_digits]. }
  assert (Hk : (0 < String.length m)%nat).
  { subst m. destruct (n =? 0)%Z; [cbn; lia | apply decimal_digits_nonempty]. }
  destruct (Nat.leb_spec (String.length m) 2) as [Hle | Hgt].
  - apply two_decimal_cut with (j := 1%nat).
    + now rewrite all_digits_app, all_digits_zeros.
    + rewrite length_append, length_zeros. lia.
    + right. lia.
  - apply two_decimal_cut.
    + exact Hm.
    + lia.
    + right. lia.
Qed.

Lemma two_decimal_unsigned_signed (s : string) :
  two_decimal_unsigned false s = true -> is_two_decimal s = true.
Proof.
  destruct s as [| c s]; [discriminate |].
  destruct c as [[] [] [] [] [] [] [] []]; cbn; intros H; solve [exact H | discriminate].
Qed.
End Digits.

(** ** The real-number instance *)

Section RealFacts.
Import RealModel.
Context {NTS : NumberToString}.
Local Open Scope R_scope.

Lemma R_pow_2 (b : R) : R_pow b 2 = b * b.
Proof.
  unfold R_pow. rewrite ZfloorZ.
  destruct (Req_dec_T 2 2) as [_ | Hne]; [| contradiction].
  unfold powerRZ. simpl. ring.
Qed.

Lemma R_toFixed_nonneg (x : R) (f : nat) (n : Z) :
  0 <= x < 10 ^ 21 ->
  IZR n <= x * 10 ^ f + / 2 < IZR n + 1 ->
  R_toFixed x f = fixed_notation n f.
Proof.
  intros [H0 Hbig] Hn. unfold R_toFixed.
  destruct (Rlt_dec x 0) as [Hneg | _]; [lra |].
  destruct (Rle_dec (10 ^ 21) x) as [Hge | _]; [lra |].
  now rewrite (Zfloor_eq n _ Hn).
Qed.

Lemma toFixed_0 : R_toFixed 0 2 = "0.00".
Proof.
  rewrite R_toFixed_nonneg with (n := 0%Z); [reflexivity | | ].
  - split; [lra |]. apply pow_lt; lra.
  - cbn. lra.
Qed.

Lemma toFixed_22_5 : R_toFixed (225 / 10) 2 = "22.50".
Proof.
  rewrite R_toFixed_nonneg with (n := 2250%Z); [reflexivity | | ].
  - split; [lra |]. cbn. lra.
  - cbn. lra.
Qed.

(** Below [10^21] in size, [toFixed(2)] prints digits, a point and two
    digits, after a minus sign for a negative value. *)
Lemma R_toFixed_two_decimal (v : R) :
  Rabs v < 10 ^ 21 -> is_two_decimal (R_toFixed v 2) = true.
Proof.
  intros Hv. unfold R_toFixed.
  destruct (Rlt_dec v 0) as [Hneg | Hpos].
  - rewrite Rabs_left in Hv by exact Hneg.
    destruct (Rle_dec (10 ^ 21) (- v)) as [Hge | _]; [lra |].
    cbn [append is_two_decimal]. apply fixed_notation_two_decimal.
  - rewrite Rabs_right in Hv by lra.
    destruct (Rle_dec (10 ^ 21) v) as [Hge | _]; [lra |].
    cbn [append]. apply two_decimal_unsigned_signed, fixed_notation_two_decimal.
Qed.

Lemma exp_nonpos (a : R) : a <= 0 -> 0 < exp a <= 1.
Proof.
  intros Ha. split; [apply exp_pos |].
  destruct Ha as [Hlt | ->]; [| rewrite exp_0; lra].
  left. rewrite <- exp_0. now apply exp_increasing.
Qed.

Lemma shape_bounds (st : VisualizerV2.State R) (x y : R) :
  0 < VisualizerV2.shape (VisualizerV2.calculateWarpMetric st x y) <= 1.
Proof.
  unfold VisualizerV2.calculateWarpMetric. cbn.
  apply exp_nonpos. rewrite R_pow_2.
  set (q := sqrt (x * x + y * y) - VisualizerV2.warpBubbleStrength st * 10).
  assert (0 <= q * q) by nra. lra.
Qed.

Lemma value2D_bound (st : VisualizerV2.State R) (i : Z) :
  in_range st -> (-10 <= i <= 10)%Z ->
  Rabs (value2D st (IZR i)) <= 1000.
Proof.
  intros (Ht & HT & Hl & HW & _) Hi.
  assert (Hx : -10 <= IZR i <= 10) by (split; apply IZR_le; lia).
  unfold value2D.
  destruct (String.eqb _ "warp").
  - pose proof (shape_bounds st (IZR i) 0) as Hs. cbn in Hs |- *.
    apply Rabs_le. split; nra.
  - destruct (String.eqb _ "time"); cbn.
    + rewrite R_pow_2.
      pose proof (COS_bound (IZR i / 2)) as Hc.
      unfold R_ltb. apply Rabs_le.
      destruct (Rlt_dec _ 0); split; nra.
    + rewrite R_pow_2.
      pose proof (SIN_bound (IZR i / 2)) as Hc.
      apply Rabs_le. split; nra.
Qed.
End RealFacts.

(** ** The instance at doubles *)

Lemma grid5 (i : Z) :
  (-5 <= i <= 5)%Z ->
  i = (-5)%Z \/ i = (-4)%Z \/ i = (-3)%Z \/ i = (-2)%Z \/ i = (-1)%Z \/ i = 0%Z
  \/ i = 1%Z \/ i = 2%Z \/ i = 3%Z \/ i = 4%Z \/ i = 5%Z.
Proof. lia. Qed.

(** One goal for each coordinate of the 3D grid. *)
Ltac on_grid5 H :=
  apply grid5 in H;
  repeat (destruct H as [H | H]; [subst |]); subst.

Section DoubleFacts.
Import Float64.
Context {E : Float64.Engine}.
Local Open Scope js_scope.

(** [toFixed] sees the double, not the decimal: 20.25 / 10 is stored just
    below 2.025 and prints as ["2.02"]. *)
Example toFixed_on_doubles :
  toFixed ((#2025 : float) / #100 / #10) 2 = "2.02"
  /\ toFixed ((#225 : float) / #10) 2 = "22.50"
  /\ toFixed (- (#0 : float)) 2 = "0.00"
  /\ toFixed (- (#1 : float) / #1000) 2 = "-0.00"
  /\ toString ((#(-5) : float) * #20) = "-100".
Proof. repeat split. Qed.

(** The cases of the [Math] functions that the standard fixes. *)
Example Math_exact_cases :
  Math_pow (#0 : float) #2 = #0
  /\ Math_exp (- (#0 : float)) = #1
  /\ Math_cos (#0 : float) = #1
  /\ Math_sin (#0 : float) = #0
  /\ (#2 : float) * #2 * #2 = #8.
Proof. repeat split. Qed.

Lemma F_mul_comm (a b : float) : a * b = b * a.
Proof.
  apply Prim2SF_inj. cbn [mul Float64.Double]. rewrite !mul_spec.
  unfold SF64mul, SFmul.
  destruct (Prim2SF a) as [sa | sa | | sa ma ea], (Prim2SF b) as [sb | sb | | sb mb eb];
    try reflexivity; try (now rewrite xorb_comm).
  now rewrite xorb_comm, Pos.mul_comm, Z.add_comm.
Qed.

Lemma ltb_zero_l (v : float) :
  (#0 <? v) = match Prim2SF v with
              | S754_infinity false | S754_finite false _ _ => true
              | _ => false
              end.
Proof.
  cbn [ltb ofZ Double]. rewrite ltb_spec.
  change (Prim2SF (F_ofZ 0)) with (S754_zero false).
  destruct (Prim2SF v) as [s | [] | | [] m e]; reflexivity.
Qed.

Lemma ltb_zero_r (v : float) :
  (v <? #0) = match Prim2SF v with
              | S754_infinity true | S754_finite true _ _ => true
              | _ => false
              end.
Proof.
  cbn [ltb ofZ Double]. rewrite ltb_spec.
  change (Prim2SF (F_ofZ 0)) with (S754_zero false).
  destruct (Prim2SF v) as [s | [] | | [] m e]; reflexivity.
Qed.

(** Rounding keeps the sign it is given. *)
Lemma binary_round_aux_sign (s : bool) (m e : Z) (l : location) :
  match binary_round_aux prec emax s m e l with
  | S754_zero s' | S754_infinity s' | S754_finite s' _ _ => s' = s
  | S754_nan => True
  end.
Proof.
  unfold binary_round_aux.
  destruct (shr_fexp prec emax m e l) as [mrs' e'].
  destruct (shr_fexp prec emax _ e' loc_Exact) as [mrs'' e''].
  destruct (shr_m mrs''); [reflexivity | | exact I].
  destruct (e'' <=? emax - prec)%Z; reflexivity.
Qed.

Lemma F_exp_not_below_zero (a : float) :
  (forall b : float, (approx_exp b <? #0) = false) -> (Math_exp a <? #0) = false.
Proof.
  intros Hexp. cbn [Math_exp Double]. unfold F_exp.
  destruct (is_nan a || PrimFloat.eqb a infinity)%bool eqn:Hnan.
  - rewrite ltb_zero_r. unfold is_nan in Hnan.
    rewrite !FloatAxioms.eqb_spec in Hnan.
    change (Prim2SF infinity) with (S754_infinity false) in Hnan.
    destruct (Prim2SF a) as [s | [] | | [] m e]; try reflexivity; cbn in Hnan.
    + discriminate.
    + unfold SFeqb in Hnan. cbn in Hnan.
      rewrite Z.compare_refl, Pos.compare_cont_refl in Hnan. discriminate.
  - destruct (PrimFloat.eqb a 0); [reflexivity |].
    destruct (PrimFloat.eqb a neg_infinity); [reflexivity | apply Hexp].
Qed.

(** At the angle zero the rotation of [generate3DData] leaves every grid
    point where it is, also in doubles: the cosine is one, the sine is
    zero, and the products and sums are exact. *)
Lemma rotation_zero (i j : Z) :
  (-5 <= i <= 5)%Z -> (-5 <= j <= 5)%Z ->
  (#i : float) * Math_cos (#0 * Math_PI / #180) - #j * Math_sin (#0 * Math_PI / #180) = #i
  /\ (#i : float) * Math_sin (#0 * Math_PI / #180) + #j * Math_cos (#0 * Math_PI / #180) = #j.
Proof.
  intros Hi Hj. on_grid5 Hi; on_grid5 Hj; split; reflexivity.
Qed.

Lemma grid_norm (i j : Z) :
  (-5 <= i <= 5)%Z -> (-5 <= j <= 5)%Z ->
  (#i : float) * #i + #j * #j = #(i * i + j * j).
Proof.
  intros Hi Hj. on_grid5 Hi; on_grid5 Hj; reflexivity.
Qed.
End DoubleFacts.

(** ** The time-mode formula *)

Section TimeModeRecord.
Context {num : Type} {N : JSNumber num}.
Local Open Scope js_scope.

(** The record of the grid coordinate [i] in time mode, for every
    implementation of Numbers, with the product in the order of the
    source. *)
Lemma time_mode_record (t T lambda W rot : num) (i : Z) :
  (-10 <= i <= 10)%Z ->
  nth_error (VisualizerV2.generate2DData (VisualizerV2.mkState t T lambda W rot "time"))
            (Z.to_nat (i + 10)) =
    Some {| VisualizerV2.x := #i;
            VisualizerV2.y :=
              toFixed (Math_pow (#i - t) #2 / #10 * time_sign t
                       + lambda * Math_cos (#i / #2)) 2 |}.
Proof. intros Hi. rewrite generate2DData_at by exact Hi. reflexivity. Qed.
End TimeModeRecord.

Section TimeMode.
Import Float64.
Context {E : Float64.Engine}.
Local Open Scope js_scope.

(** C1.  In time mode, at every grid coordinate [x] of the 2D domain and
    for all doubles [t], [T], [lambda] and [W], the record that
    [generate2DData] produces has [y] equal to the two-decimal formatting,
    by [toFixed(2)], of [sign t * ((x - t)^2 / 10) + lambda * cos (x / 2)],
    each operation being the one of doubles, whatever the engine; [sign t]
    is [-1] when [t < 0] and [+1] when not.  In particular [sign 0 = +1],
    for the zero of either sign. *)
Theorem time_mode_formula (t T lambda W rot : float) (i : Z) :
  (-10 <= i <= 10)%Z ->
  nth_error (VisualizerV2.generate2DData (VisualizerV2.mkState t T lambda W rot "time"))
            (Z.to_nat (i + 10)) =
    Some {| VisualizerV2.x := #i;
            VisualizerV2.y :=
              toFixed (time_sign t * (Math_pow (#i - t) #2 / #10)
                       + lambda * Math_cos (#i / #2)) 2 |}
  /\ ((t <? #0) = true -> time_sign t = - #1)
  /\ ((t <? #0) = false -> time_sign t = #1)
  /\ time_sign (#0 : float) = #1
  /\ time_sign (- (#0 : float)) = #1.
Proof.
  intros Hi. split; [| split; [| split; [| split]]].
  - rewrite time_mode_record by exact Hi.
    now rewrite (F_mul_comm (time_sign t)).
  - intros Ht. unfold time_sign. now rewrite Ht.
  - intros Ht. unfold time_sign. now rewrite Ht.
  - reflexivity.
  - reflexivity.
Qed.
End TimeMode.

(** ** The warp metric *)

Section WarpMetric.
Import Float64.
Context {E : Float64.Engine}.
Local Open Scope js_scope.

(** C2.  In doubles, for all [x], [y] and [W] and whatever the engine,
    [calculateWarpMetric] returns [shape = exp (- (R - 10 W)^2 / 8)] with
    [R = sqrt (x x + y y)], and [energyDensity = - |W| * shape / (8 PI)],
    each operation being the one of doubles.  At [W = 0] the point
    [(0, 0)] has [shape = 1], and its [energyDensity] is a zero: the
    double [-0], which [===] equates with [0]. *)
Theorem warp_metric_formula (t T lambda W rot : float) (mode : string) (x y : float) :
  let st := VisualizerV2.mkState t T lambda W rot mode in
  let st0 := VisualizerV2.mkState t T lambda #0 rot mode in
  let radius := Math_sqrt (x * x + y * y) in
  VisualizerV2.shape (VisualizerV2.calculateWarpMetric st x y) =
    Math_exp (- Math_pow (radius - #10 * W) #2 / #8)
  /\ VisualizerV2.energyDensity (VisualizerV2.calculateWarpMetric st x y) =
    - Math_abs W * Math_exp (- Math_pow (radius - #10 * W) #2 / #8) / (#8 * Math_PI)
  /\ VisualizerV2.shape (VisualizerV2.calculateWarpMetric st0 #0 #0) = #1
  /\ VisualizerV2.energyDensity (VisualizerV2.calculateWarpMetric st0 #0 #0) = - #0
  /\ Float64.strict_eq
       (VisualizerV2.energyDensity (VisualizerV2.calculateWarpMetric st0 #0 #0)) #0 = true.
Proof.
  intros st st0 radius.
  assert (Hshape : VisualizerV2.shape (VisualizerV2.calculateWarpMetric st x y) =
                   Math_exp (- Math_pow (radius - #10 * W) #2 / #8)).
  { rewrite (F_mul_comm #10 W). reflexivity. }
  split; [exact Hshape | split; [| repeat split]].
  rewrite <- Hshape. reflexivity.
Qed.

(** Where the exact exponential is a positive real too small for a
    double, the shape is the double zero.  At [x = 10^200] the product
    [x * x] overflows: the radius is infinite, the exponent is minus
    infinity, and [Math.exp] of it is [+0], whatever the engine. *)
Example warp_metric_overflow (t T lambda rot : float) (mode : string) :
  VisualizerV2.shape
    (VisualizerV2.calculateWarpMetric
       (VisualizerV2.mkState t T lambda #0 rot mode) #(10 ^ 200) #0) = #0.
Proof. reflexivity. Qed.
End WarpMetric.

(** ** The 2D generator, read by grid coordinate *)

Section Lookup.
Import RealModel.
Context {NTS : NumberToString}.
Local Open Scope R_scope.

Lemma find_point2D (st : VisualizerV2.State R) (i : Z) (l : list Z) :
  In i l ->
  find (fun p => if Req_dec_T (VisualizerV2.x p) (IZR i) then true else false)
       (map (point2D st) l) = Some (point2D st i).
Proof.
  induction l as [| a l IH]; intros Hin; [destruct Hin |].
  cbn [map find point2D VisualizerV2.x ofZ RNumber].
  destruct (Req_dec_T (IZR a) (IZR i)) as [Heq | Hne].
  - apply eq_IZR in Heq. now subst a.
  - destruct Hin as [-> | Hin]; [contradiction | now apply IH].
Qed.

Lemma y_at_generate2DData (st : VisualizerV2.State R) (i : Z) :
  (-10 <= i <= 10)%Z ->
  y_at (VisualizerV2.generate2DData st) (IZR i) =
  Some (R_toFixed (value2D st (IZR i)) 2).
Proof.
  intros Hi. unfold y_at.
  rewrite generate2DData_map, find_point2D by (apply zrange_In; exact Hi).
  reflexivity.
Qed.

Lemma value2D_time (t T lambda W rot x : R) :
  value2D (VisualizerV2.mkState t T lambda W rot "time") x =
  sign t * (x - t) ^ 2 / 10 + lambda * cos (x / 2).
Proof.
  unfold value2D, sign. cbn. rewrite R_pow_2. unfold R_ltb.
  destruct (Rlt_dec t 0); field.
Qed.

Lemma value2D_tensor (t T lambda W rot x : R) :
  value2D (VisualizerV2.mkState t T lambda W rot "tensor") x =
  T * x ^ 2 / 10 + lambda * sin (x / 2).
Proof.
  unfold value2D. cbn. rewrite R_pow_2. field.
Qed.
End Lookup.

(** ** Values of the 2D generator *)

Section TwoD.
Import RealModel.
Context {NTS : NumberToString}.
Local Open Scope R_scope.

(** C6.  In time mode with [lambda = 0], the record at the grid point
    [x = t] has [y = "0.00"], for every [t] on the grid (and whatever the
    tensor value, [0] included); with [t = 5] the record at [x = 5] has
    [y = "0.00"] and the record at [x = -10] has [y = "22.50"]. *)
Theorem time_mode_vertex (T W rot : R) (i : Z) :
  (-10 <= i <= 10)%Z ->
  y_at (VisualizerV2.generate2DData
          (VisualizerV2.mkState (IZR i) T 0 W rot "time")) (IZR i) = Some "0.00"
  /\ y_at (VisualizerV2.generate2DData
             (VisualizerV2.mkState 5 0 0 W rot "time")) 5 = Some "0.00"
  /\ y_at (VisualizerV2.generate2DData
             (VisualizerV2.mkState 5 0 0 W rot "time")) (-10) = Some "22.50".
Proof.
  intros Hi. repeat split.
  - rewrite y_at_generate2DData by exact Hi.
    rewrite value2D_time.
    replace (sign (IZR i) * (IZR i - IZR i) ^ 2 / 10 + 0 * cos (IZR i / 2))
      with 0 by field.
    now rewrite toFixed_0.
  - rewrite (y_at_generate2DData _ (i := 5)) by lia.
    rewrite value2D_time.
    replace (sign 5 * (5 - 5) ^ 2 / 10 + 0 * cos (5 / 2)) with 0 by field.
    now rewrite toFixed_0.
  - rewrite (y_at_generate2DData _ (i := -10)) by lia.
    rewrite value2D_time.
    assert (Hs : sign 5 = 1)
      by (unfold sign; destruct (Rlt_dec 5 0); [lra | reflexivity]).
    rewrite Hs.
    replace (1 * (-10 - 5) ^ 2 / 10 + 0 * cos (-10 / 2)) with (225 / 10) by field.
    now rewrite toFixed_22_5.
Qed.

(** C7.  In tensor mode with [lambda = 0] the output is even in the grid
    coordinate: for every [x] in [-10, 10] the record at [x] and the record
    at [-x] carry the same [y]. *)
Theorem tensor_mode_even (t T W rot : R) (i : Z) :
  (-10 <= i <= 10)%Z ->
  exists s : string,
    y_at (VisualizerV2.generate2DData
            (VisualizerV2.mkState t T 0 W rot "tensor")) (IZR i) = Some s
    /\ y_at (VisualizerV2.generate2DData
               (VisualizerV2.mkState t T 0 W rot "tensor")) (- IZR i) = Some s.
Proof.
  intros Hi.
  exists (R_toFixed (T * IZR i ^ 2 / 10) 2). split.
  - rewrite y_at_generate2DData by exact Hi.
    rewrite value2D_tensor. f_equal. f_equal. field.
  - rewrite <- opp_IZR.
    rewrite y_at_generate2DData by lia.
    rewrite value2D_tensor, opp_IZR. f_equal. f_equal. field.
Qed.

Lemma generate2DData_xs (st : VisualizerV2.State R) :
  map (@VisualizerV2.x R) (VisualizerV2.generate2DData st) =
  [-10; -9; -8; -7; -6; -5; -4; -3; -2; -1; 0; 1; 2; 3; 4; 5; 6; 7; 8; 9; 10].
Proof. rewrite generate2DData_map, map_map. reflexivity. Qed.

(** C5.  For every state within the slider ranges and every mode,
    [generate2DData] returns exactly 21 records; their [x] fields are the
    integers from [-10] to [10] in strictly ascending order; each [y]
    field is a two-decimal numeral: digits, a point and two digits, with a
    minus sign or without.  It is the value at that [x] formatted by
    [toFixed(2)]: this part, with the length and the [x] fields, holds for
    every implementation of Numbers and for every state; and the [x]
    fields ascend as doubles, by the [<] of doubles. *)
Theorem generate2DData_contract (st : VisualizerV2.State R) :
  in_range st ->
  List.length (VisualizerV2.generate2DData st) = 21%nat
  /\ map (@VisualizerV2.x R) (VisualizerV2.generate2DData st) =
     [-10; -9; -8; -7; -6; -5; -4; -3; -2; -1; 0; 1; 2; 3; 4; 5; 6; 7; 8; 9; 10]
  /\ Sorted Rlt (map (@VisualizerV2.x R) (VisualizerV2.generate2DData st))
  /\ Forall (fun p => is_two_decimal (VisualizerV2.y p) = true)
       (VisualizerV2.generate2DData st)
  /\ (forall (num : Type) (N : JSNumber num) (st' : VisualizerV2.State num),
        List.length (VisualizerV2.generate2DData st') = 21%nat
        /\ map (@VisualizerV2.x num) (VisualizerV2.generate2DData st') =
           map ofZ (zrange (-10) 10)
        /\ Forall (fun p =>
             VisualizerV2.y p = toFixed (value2D st' (VisualizerV2.x p)) 2)
           (VisualizerV2.generate2DData st'))
  /\ (forall (E : Float64.Engine) (st' : VisualizerV2.State float),
        Sorted (fun a b : float => @ltb float Float64.Double a b = true)
          (map (@VisualizerV2.x float)
               (@VisualizerV2.generate2DData float Float64.Double st'))).
Proof.
  intros Hrange. split; [| split; [| split; [| split; [| split]]]].
  - rewrite generate2DData_map, length_map. now rewrite zrange_length.
  - apply generate2DData_xs.
  - rewrite generate2DData_xs. repeat constructor; lra.
  - rewrite generate2DData_map. apply Forall_forall.
    intros p Hp. apply in_map_iff in Hp as (i & <- & Hi).
    assert (Hgrid : (-10 <= i <= 10)%Z).
    { unfold zrange in Hi. apply in_map_iff in Hi as (k & <- & Hk).
      apply in_seq in Hk. cbn in Hk. lia. }
    apply R_toFixed_two_decimal.
    apply Rle_lt_trans with (r2 := 1000).
    + now apply value2D_bound.
    + cbn. lra.
  - intros num N st'. rewrite generate2DData_map. split; [| split].
    + now rewrite length_map, zrange_length.
    + rewrite map_map. reflexivity.
    + apply Forall_forall. intros p Hp.
      apply in_map_iff in Hp as (i & <- & _). reflexivity.
  - intros E st'. rewrite generate2DData_map, map_map.
    cbn [point2D VisualizerV2.x]. repeat constructor.
Qed.

(** C10.  With [lambda = 0] the second version returns what the first
    version returns: in time mode and in tensor mode, for every [t] and
    [T], [generateData] and [generate2DData] produce the same 21 records,
    [x] for [x] and two-decimal string for two-decimal string. *)
Theorem v2_refines_v1 (t T W rot : R) :
  (pairs1 (VisualizerV1.generateData (VisualizerV1.mkState t T "time")) =
   pairs2 (VisualizerV2.generate2DData (VisualizerV2.mkState t T 0 W rot "time"))
   /\
   pairs1 (VisualizerV1.generateData (VisualizerV1.mkState t T "tensor")) =
   pairs2 (VisualizerV2.generate2DData (VisualizerV2.mkState t T 0 W rot "tensor")))
  /\ List.length (VisualizerV1.generateData (VisualizerV1.mkState t T "time")) = 21%nat
  /\ List.length (VisualizerV1.generateData (VisualizerV1.mkState t T "tensor")) = 21%nat.
Proof.
  unfold pairs1, pairs2.
  rewrite !generateData_map, !generate2DData_map, !map_map, !length_map.
  repeat split; try (now rewrite zrange_length).
  - apply map_ext. intros i. cbn. f_equal. f_equal. field.
  - apply map_ext. intros i. cbn. f_equal. f_equal. field.
Qed.
End TwoD.

(** ** The 3D generator *)

Section ThreeDShape.
Context {num : Type} {N : JSNumber num}.
Local Open Scope js_scope.

(** C4.  [generate3DData] returns exactly 121 records, row by row over the
    grid [-5, 5] x [-5, 5]: the record at index [i_index * 11 + j_index]
    is the one computed at the grid point
    [(i, j) = (-5 + i_index, -5 + j_index)]. *)
Theorem generate3DData_row_major (st : VisualizerV2.State num) (i_index j_index : nat) :
  (i_index <= 10)%nat -> (j_index <= 10)%nat ->
  List.length (VisualizerV2.generate3DData st) = 121%nat
  /\ nth_error (VisualizerV2.generate3DData st) (i_index * 11 + j_index) =
     Some (let i := (-5 + Z.of_nat i_index)%Z in
           let j := (-5 + Z.of_nat j_index)%Z in
           VisualizerV2.template3 (#i * #20) (#j * #20)
                                  (value3D st #i #j * #20)).
Proof.
  intros Hi Hj. split.
  - apply generate3DData_length.
  - now rewrite generate3DData_nth.
Qed.

(** C3, as the code has it.  Every record of [generate3DData] is one
    string, the template literal of the scaled triple alone:
    [20 i], [20 j] and [20 z], separated by commas, for a grid point
    [(i, j)] of [-5, 5] x [-5, 5]. *)
Theorem generate3DData_records_scaled (st : VisualizerV2.State num) :
  Forall (fun record : string =>
    exists i j : Z,
      (-5 <= i <= 5)%Z /\ (-5 <= j <= 5)%Z /\
      record = (toString (#i * #20) ++ "," ++ toString (#j * #20) ++ "," ++
                toString (value3D st #i #j * #20))%string)
    (VisualizerV2.generate3DData st).
Proof.
  rewrite generate3DData_rows. apply Forall_forall.
  intros record Hin.
  apply in_flat_map in Hin as (i & Hi & Hin).
  apply in_map_iff in Hin as (j & <- & Hj).
  exists i, j. repeat split; try reflexivity.
  all: unfold zrange in Hi, Hj;
    apply in_map_iff in Hi as (ki & <- & Hi);
    apply in_map_iff in Hj as (kj & <- & Hj);
    apply in_seq in Hi; apply in_seq in Hj; cbn in Hi, Hj; lia.
Qed.

(** C9.  In warp mode the output does not depend on time, tensor or
    lambda: two states in warp mode with the same warp strength give the
    same 2D output, and the same 3D output when they also have the same
    rotation angle. *)
Theorem warp_mode_independence (st1 st2 : VisualizerV2.State num) :
  VisualizerV2.visualMode st1 = "warp" ->
  VisualizerV2.visualMode st2 = "warp" ->
  VisualizerV2.warpBubbleStrength st1 = VisualizerV2.warpBubbleStrength st2 ->
  VisualizerV2.generate2DData st1 = VisualizerV2.generate2DData st2
  /\ (VisualizerV2.rotationAngle st1 = VisualizerV2.rotationAngle st2 ->
      VisualizerV2.generate3DData st1 = VisualizerV2.generate3DData st2).
Proof.
  intros Hm1 Hm2 HW. split.
  - rewrite !generate2DData_map. apply map_ext. intros i.
    unfold point2D, value2D, VisualizerV2.calculateWarpMetric.
    now rewrite Hm1, Hm2, HW.
  - intros Hrot. rewrite !generate3DData_rows.
    apply flat_map_ext. intros i. apply map_ext. intros j.
    unfold point3D, value3D, VisualizerV2.calculateWarpMetric.
    now rewrite Hm1, Hm2, HW, Hrot.
Qed.
End ThreeDShape.

Section ThreeDValues.
Import RealModel.
Context {NTS : NumberToString}.
Local Open Scope R_scope.

Lemma rotation_preserves_norm (x y rad : R) :
  (x * cos rad - y * sin rad) * (x * cos rad - y * sin rad)
  + (x * sin rad + y * cos rad) * (x * sin rad + y * cos rad)
  = x * x + y * y.
Proof.
  pose proof (sin2_cos2 rad) as H. unfold Rsqr in H.
  replace ((x * cos rad - y * sin rad) * (x * cos rad - y * sin rad)
           + (x * sin rad + y * cos rad) * (x * sin rad + y * cos rad))
    with ((x * x + y * y) * (sin rad * sin rad + cos rad * cos rad)) by ring.
  rewrite H. ring.
Qed.

Lemma value3D_rotation (t T lambda W rot1 rot2 : R) (mode : string) (x y : R) :
  value3D (VisualizerV2.mkState t T lambda W rot1 mode) x y =
  value3D (VisualizerV2.mkState t T lambda W rot2 mode) x y.
Proof.
  unfold value3D, VisualizerV2.calculateWarpMetric.
  cbn -[R_pow]. now rewrite !rotation_preserves_norm.
Qed.

(** C8.  With exact real arithmetic the whole output of [generate3DData]
    is the same for every rotation angle: the first two fields of a
    record are the unrotated [20 i] and [20 j], and [z] reads the rotated
    coordinates only through [rotX * rotX + rotY * rotY], which is
    [i * i + j * j] whatever the angle. *)
Theorem rotation_independence (t T lambda W theta1 theta2 : R) (mode : string) :
  VisualizerV2.generate3DData (VisualizerV2.mkState t T lambda W theta1 mode) =
  VisualizerV2.generate3DData (VisualizerV2.mkState t T lambda W theta2 mode)
  /\ forall x y : R,
       let rad := theta1 * PI / 180 in
       let rotX := x * cos rad - y * sin rad in
       let rotY := x * sin rad + y * cos rad in
       rotX * rotX + rotY * rotY = x * x + y * y.
Proof.
  split.
  - rewrite !generate3DData_rows.
    apply flat_map_ext. intros i. apply map_ext. intros j.
    unfold point3D.
    now rewrite (value3D_rotation t T lambda W theta1 theta2).
  - intros x y rad rotX rotY. apply rotation_preserves_norm.
Qed.

Lemma R_toString_int (z : Z) :
  (Z.abs z <= 9007199254740992)%Z -> R_toString (IZR z) = int_numeral z.
Proof.
  intros Hz. unfold R_toString. rewrite ZfloorZ.
  destruct (Req_dec_T (IZR z) (IZR z)) as [_ | Hne]; [| contradiction].
  destruct (Rle_dec (Rabs (IZR z)) 9007199254740992) as [_ | Hgt]; [reflexivity |].
  exfalso. apply Hgt.
  rewrite <- abs_IZR. now apply IZR_le.
Qed.
(** The first two fields of a record are the numerals of [20 i] and
    [20 j]: the grid point can be read back from the record. *)
Lemma scaled_coordinate_numeral (i : Z) :
  (-5 <= i <= 5)%Z -> R_toString (IZR i * 20) = int_numeral (i * 20).
Proof.
  intros Hi.
  assert (Hsmall : (Z.abs (i * 20) <= 9007199254740992)%Z) by lia.
  replace (IZR i * 20) with (IZR (i * 20)) by apply mult_IZR.
  apply R_toString_int. exact Hsmall.
Qed.
End ThreeDValues.

(** ** A state at rest, evaluated *)

Section AtRest.
Import RealModel.
Local Open Scope R_scope.
Local Existing Instance no_numeral.

Lemma value3D_tensor_at_rest (x y : R) :
  value3D (VisualizerV2.mkState 0 0 0 0 0 "tensor") x y = 0.
Proof. unfold value3D. cbn. field. Qed.

Lemma first_record_tensor_at_rest :
  nth_error (VisualizerV2.generate3DData (VisualizerV2.mkState 0 0 0 0 0 "tensor")) 0
  = Some "-100,-100,0".
Proof.
  rewrite (generate3DData_nth _ (i_index := 0) (j_index := 0)) by lia.
  unfold point3D, VisualizerV2.template3.
  rewrite value3D_tensor_at_rest.
  cbn [toString mul ofZ RNumber Z.of_nat Z.add].
  replace (-5 * 20) with (IZR (-100)) by (simpl; lra).
  replace (0 * 20) with (IZR 0) by (simpl; lra).
  rewrite !R_toString_int by lia.
  reflexivity.
Qed.

(** C3, as stated, fails.  With every slider at zero in tensor mode the
    first record, that of the grid point [(-5, -5)], is ["-100,-100,0"]:
    its fields are the scaled coordinates and the scaled [z], and the raw
    coordinate [-5] is not among them. *)
Lemma raw_triple_not_exposed :
  ~ exposes_raw_and_scaled (VisualizerV2.mkState 0 0 0 0 0 "tensor").
Proof.
  intros Hall.
  destruct (Hall (-5)%Z (-5)%Z) as (record & Hnth & Hraw & _); [lia | lia |].
  change (Z.to_nat ((-5 + 5) * 11 + (-5 + 5))) with 0%nat in Hnth.
  rewrite first_record_tensor_at_rest in Hnth. injection Hnth as <-.
  destruct Hraw as [Hi _].
  cbn [toString ofZ RNumber] in Hi.
  rewrite R_toString_int in Hi by lia.
  cbn in Hi.
  repeat (destruct Hi as [Hi | Hi]; [discriminate Hi |]).
  exact Hi.
Qed.
End AtRest.

(** ** The theorems at concrete states *)

Section Instances.
Import RealModel.
Local Open Scope R_scope.
Local Existing Instance no_numeral.

Lemma generate3DData_row_major_witness :
  let st := VisualizerV2.mkState 0 0 0 0 0 "tensor" in
  ((1 <= 10)%nat /\ (2 <= 10)%nat) /\
  (List.length (VisualizerV2.generate3DData st) = 121%nat
   /\ nth_error (VisualizerV2.generate3DData st) (1 * 11 + 2) =
      Some (VisualizerV2.template3 (-4 * 20) (-3 * 20)
                                   (value3D st (-4) (-3) * 20))).
Proof.
  intros st. split; [split; lia |].
  exact (generate3DData_row_major st (i_index := 1) (j_index := 2)
           ltac:(lia) ltac:(lia)).
Defined.

Lemma generate2DData_contract_witness :
  let st := VisualizerV2.mkState 5 (-10) 0 10 359 "time" in
  in_range st /\
  (List.length (VisualizerV2.generate2DData st) = 21%nat
   /\ map (@VisualizerV2.x R) (VisualizerV2.generate2DData st) =
      [-10; -9; -8; -7; -6; -5; -4; -3; -2; -1; 0; 1; 2; 3; 4; 5; 6; 7; 8; 9; 10]
   /\ Sorted Rlt (map (@VisualizerV2.x R) (VisualizerV2.generate2DData st))
   /\ Forall (fun p => is_two_decimal (VisualizerV2.y p) = true)
        (VisualizerV2.generate2DData st)).
Proof.
  intros st.
  assert (Hrange : in_range st) by (unfold in_range, st; cbn; lra).
  split; [exact Hrange |].
  destruct (generate2DData_contract Hrange) as (Hlen & Hxs & Hsorted & Hform & _).
  repeat split; assumption.
Defined.

Lemma time_mode_vertex_witness :
  (-10 <= -7 <= 10)%Z /\
  (y_at (VisualizerV2.generate2DData (VisualizerV2.mkState (-7) 0 0 0 0 "time")) (-7)
     = Some "0.00"
   /\ y_at (VisualizerV2.generate2DData (VisualizerV2.mkState 5 0 0 0 0 "time")) 5
     = Some "0.00"
   /\ y_at (VisualizerV2.generate2DData (VisualizerV2.mkState 5 0 0 0 0 "time")) (-10)
     = Some "22.50").
Proof.
  split; [lia |].
  apply (time_mode_vertex 0 0 0 (i := -7)). lia.
Defined.

Lemma tensor_mode_even_witness :
  (-10 <= 4 <= 10)%Z /\
  exists s : string,
    y_at (VisualizerV2.generate2DData (VisualizerV2.mkState 0 3 0 0 0 "tensor")) 4
      = Some s
    /\ y_at (VisualizerV2.generate2DData (VisualizerV2.mkState 0 3 0 0 0 "tensor")) (- 4)
      = Some s.
Proof.
  split; [lia |].
  apply (tensor_mode_even 0 3 0 0 (i := 4)). lia.
Defined.

Lemma warp_mode_independence_witness :
  let st1 := VisualizerV2.mkState 1 2 3 4 90 "warp" in
  let st2 := VisualizerV2.mkState (-1) (-2) (-3) 4 90 "warp" in
  (VisualizerV2.visualMode st1 = "warp" /\
   VisualizerV2.visualMode st2 = "warp" /\
   VisualizerV2.warpBubbleStrength st1 = VisualizerV2.warpBubbleStrength st2 /\
   VisualizerV2.rotationAngle st1 = VisualizerV2.rotationAngle st2) /\
  (VisualizerV2.generate2DData st1 = VisualizerV2.generate2DData st2
   /\ VisualizerV2.generate3DData st1 = VisualizerV2.generate3DData st2).
Proof.
  intros st1 st2. split; [repeat split |].
  destruct (warp_mode_independence st1 st2 eq_refl eq_refl eq_refl) as [H2D H3D].
  split; [exact H2D | exact (H3D eq_refl)].
Defined.
End Instances.

(** * More of the components *)

(** ** What each mode reads, and the slider of the first version *)

Section ModeReads.
Context {num : Type} {N : JSNumber num}.
Local Open Scope js_scope.

(** X1.  Outside warp mode the generators do not read the warp strength:
    two states in time mode with the same time value and lambda, or in
    tensor mode with the same tensor value and lambda, give the same 2D
    output, and the same 3D output when their rotation angles agree. *)
Theorem time_tensor_mode_independence (st1 st2 : VisualizerV2.State num) :
  (VisualizerV2.visualMode st1 = "time" /\ VisualizerV2.visualMode st2 = "time" /\
   VisualizerV2.timeValue st1 = VisualizerV2.timeValue st2)
  \/ (VisualizerV2.visualMode st1 = "tensor" /\ VisualizerV2.visualMode st2 = "tensor" /\
      VisualizerV2.tensorValue st1 = VisualizerV2.tensorValue st2) ->
  VisualizerV2.lambdaValue st1 = VisualizerV2.lambdaValue st2 ->
  VisualizerV2.generate2DData st1 = VisualizerV2.generate2DData st2
  /\ (VisualizerV2.rotationAngle st1 = VisualizerV2.rotationAngle st2 ->
      VisualizerV2.generate3DData st1 = VisualizerV2.generate3DData st2).
Proof.
  intros Hmode Hlambda. split.
  - rewrite !generate2DData_map. apply map_ext. intros i.
    unfold point2D, value2D.
    destruct Hmode as [(Hm1 & Hm2 & Hv) | (Hm1 & Hm2 & Hv)];
      now rewrite Hm1, Hm2, Hv, Hlambda.
  - intros Hrot. rewrite !generate3DData_rows.
    apply flat_map_ext. intros i. apply map_ext. intros j.
    unfold point3D, value3D.
    destruct Hmode as [(Hm1 & Hm2 & Hv) | (Hm1 & Hm2 & Hv)];
      now rewrite Hm1, Hm2, Hv, Hlambda, Hrot.
Qed.

Variable parseFloat : string -> num.

Lemma generateData_tensor_reads (t1 t2 T : num) :
  VisualizerV1.generateData (VisualizerV1.mkState t1 T "tensor") =
  VisualizerV1.generateData (VisualizerV1.mkState t2 T "tensor").
Proof. rewrite !generateData_map. apply map_ext. intros i. reflexivity. Qed.

Lemma generateData_time_reads (t T1 T2 : num) :
  VisualizerV1.generateData (VisualizerV1.mkState t T1 "time") =
  VisualizerV1.generateData (VisualizerV1.mkState t T2 "time").
Proof. rewrite !generateData_map. apply map_ext. intros i. reflexivity. Qed.

(** X2.  The slider of the first version edits the value of the current
    mode and nothing else: after [onChange] the slider shows the parsed
    input and the mode is the same; a change made in time mode leaves the
    tensor plot as it was, and a change made in tensor mode leaves the time
    plot as it was. *)
Theorem slider_edits_current_mode (st : VisualizerV1.State num) (value : string) :
  sliderValue (sliderOnChange parseFloat st value) = parseFloat value
  /\ VisualizerV1.mode (sliderOnChange parseFloat st value) = VisualizerV1.mode st
  /\ VisualizerV1.generateData
       (setMode (sliderOnChange parseFloat (setMode st "time") value) "tensor")
     = VisualizerV1.generateData (setMode st "tensor")
  /\ VisualizerV1.generateData
       (setMode (sliderOnChange parseFloat (setMode st "tensor") value) "time")
     = VisualizerV1.generateData (setMode st "time").
Proof.
  split; [| split; [| split]].
  - unfold sliderValue, sliderOnChange.
    destruct (String.eqb (VisualizerV1.mode st) "time") eqn:Hm; cbn; now rewrite Hm.
  - unfold sliderOnChange.
    destruct (String.eqb (VisualizerV1.mode st) "time"); reflexivity.
  - apply generateData_tensor_reads.
  - apply generateData_time_reads.
Qed.
End ModeReads.

(** ** Records of the 3D generator, split and projected *)

Lemma append_empty_r (s : string) : (s ++ "")%string = s.
Proof. induction s as [| c s IH]; cbn; [reflexivity | now f_equal]. Qed.

Lemma append_snoc (s rest : string) (c : ascii) :
  ((s ++ String c EmptyString) ++ rest)%string = (s ++ String c rest)%string.
Proof. induction s as [| d s IH]; cbn; [reflexivity | now f_equal]. Qed.

Lemma fields_from_no_comma (s current : string) :
  no_comma s = true -> fields_from current s = [(current ++ s)%string].
Proof.
  revert current. induction s as [| c s IH]; intros current Hs.
  - cbn. now rewrite append_empty_r.
  - cbn in Hs. apply andb_true_iff in Hs as [Hc Hs].
    apply negb_true_iff in Hc. cbn [fields_from]. rewrite Hc.
    rewrite IH by exact Hs. now rewrite append_snoc.
Qed.

Lemma fields_from_comma (s rest current : string) :
  no_comma s = true ->
  fields_from current (s ++ "," ++ rest) = (current ++ s)%string :: fields rest.
Proof.
  revert current. induction s as [| c s IH]; intros current Hs.
  - cbn. now rewrite append_empty_r.
  - cbn in Hs. apply andb_true_iff in Hs as [Hc Hs].
    apply negb_true_iff in Hc. cbn [append fields_from]. rewrite Hc.
    rewrite IH by exact Hs. now rewrite append_snoc.
Qed.

Lemma fields_three (a b c : string) :
  no_comma a = true -> no_comma b = true -> no_comma c = true ->
  fields (a ++ "," ++ b ++ "," ++ c) = [a; b; c].
Proof.
  intros Ha Hb Hc. unfold fields.
  rewrite fields_from_comma by exact Ha. unfold fields.
  rewrite fields_from_comma by exact Hb. unfold fields.
  now rewrite fields_from_no_comma by exact Hc.
Qed.

Section Records.
Context {num : Type} {N : JSNumber num}.
Local Open Scope js_scope.

(** X3.  When the string conversion of Numbers never writes a comma,
    [split(',')] gives back exactly the three strings that
    [generate3DData] joined: the record at index [i_index * 11 + j_index]
    splits into the conversions of [20 i], [20 j] and [20 z], in this
    order, and into nothing more. *)
Theorem records_split_in_three (st : VisualizerV2.State num) (i_index j_index : nat) :
  (forall v : num, no_comma (toString v) = true) ->
  (i_index <= 10)%nat -> (j_index <= 10)%nat ->
  exists record : string,
    nth_error (VisualizerV2.generate3DData st) (i_index * 11 + j_index) = Some record
    /\ fields record =
       [toString (#(-5 + Z.of_nat i_index) * #20);
        toString (#(-5 + Z.of_nat j_index) * #20);
        toString (value3D st #(-5 + Z.of_nat i_index) #(-5 + Z.of_nat j_index) * #20)].
Proof.
  intros Hcomma Hi Hj.
  exists (point3D st (-5 + Z.of_nat i_index) (-5 + Z.of_nat j_index)). split.
  - now apply generate3DData_nth.
  - unfold point3D, VisualizerV2.template3. now apply fields_three.
Qed.
End Records.

(** ** The warp bubble *)

Section WarpBubble.
Import RealModel.
Context {NTS : NumberToString}.
Local Open Scope R_scope.

Lemma shape_formula (st : VisualizerV2.State R) (x y : R) :
  VisualizerV2.shape (VisualizerV2.calculateWarpMetric st x y) =
  exp (- ((sqrt (x * x + y * y) - VisualizerV2.warpBubbleStrength st * 10)
          * (sqrt (x * x + y * y) - VisualizerV2.warpBubbleStrength st * 10)) / 8).
Proof.
  unfold VisualizerV2.calculateWarpMetric. cbn. rewrite R_pow_2.
  f_equal. field.
Qed.

Lemma value2D_warp (t T lambda W rot x : R) :
  value2D (VisualizerV2.mkState t T lambda W rot "warp") x =
  exp (- ((Rabs x - W * 10) * (Rabs x - W * 10)) / 8) * W * 5.
Proof.
  unfold value2D.
  change (String.eqb (VisualizerV2.visualMode
            (VisualizerV2.mkState t T lambda W rot "warp")) "warp") with true.
  cbv iota zeta. rewrite shape_formula.
  change (ofZ 0) with 0. change (ofZ 5) with 5.
  change (VisualizerV2.warpBubbleStrength
            (VisualizerV2.mkState t T lambda W rot "warp")) with W.
  replace (x * x + 0 * 0) with (Rsqr x) by (unfold Rsqr; ring).
  rewrite sqrt_Rsqr_abs. reflexivity.
Qed.

(** X5.  The 2D warp plot is symmetric about [x = 0]: in warp mode the
    records at [x] and at [-x] carry the same [y], for every state. *)
Theorem warp_mode_even (t T lambda W rot : R) (i : Z) :
  (-10 <= i <= 10)%Z ->
  exists s : string,
    y_at (VisualizerV2.generate2DData
            (VisualizerV2.mkState t T lambda W rot "warp")) (IZR i) = Some s
    /\ y_at (VisualizerV2.generate2DData
               (VisualizerV2.mkState t T lambda W rot "warp")) (- IZR i) = Some s.
Proof.
  intros Hi.
  exists (R_toFixed (value2D (VisualizerV2.mkState t T lambda W rot "warp") (IZR i)) 2).
  split.
  - now apply y_at_generate2DData.
  - rewrite <- opp_IZR. rewrite y_at_generate2DData by lia.
    rewrite !value2D_warp, opp_IZR, Rabs_Ropp. reflexivity.
Qed.

(** X6.  The height of the 2D warp plot: at every grid coordinate the
    formatted value is at most [5 |W|] in size, and where the grid meets
    the bubble wall, [|x| = 10 W], the value is [5 W] itself. *)
Theorem warp_bubble_wall (t T lambda W rot : R) (i : Z) :
  (-10 <= i <= 10)%Z ->
  exists v : R,
    y_at (VisualizerV2.generate2DData
            (VisualizerV2.mkState t T lambda W rot "warp")) (IZR i)
      = Some (R_toFixed v 2)
    /\ Rabs v <= 5 * Rabs W
    /\ (Rabs (IZR i) = W * 10 -> v = 5 * W).
Proof.
  intros Hi.
  exists (value2D (VisualizerV2.mkState t T lambda W rot "warp") (IZR i)).
  split; [now apply y_at_generate2DData |].
  rewrite value2D_warp.
  set (q := Rabs (IZR i) - W * 10).
  assert (Hq : 0 < exp (- (q * q) / 8) <= 1).
  { apply exp_nonpos. assert (0 <= q * q) by nra. lra. }
  split.
  - rewrite !Rabs_mult. rewrite (Rabs_right 5) by lra.
    rewrite (Rabs_right (exp _)) by lra.
    pose proof (Rabs_pos W). nra.
  - intros Hwall. replace q with 0 by (unfold q; lra).
    replace (- (0 * 0) / 8) with 0 by field. rewrite exp_0. ring.
Qed.
End WarpBubble.

Section WarpSigns.
Import Float64.
Context {E : Float64.Engine}.
Local Open Scope js_scope.

(** X4.  The signs of the warp metric, in doubles.  When the engine's
    exponential never returns a number below zero, the shape is never
    below zero and the energy density is never above zero, for all
    doubles [x], [y] and [W]: the comparisons [shape < 0] and
    [0 < energyDensity] are both false. *)
Theorem warp_metric_ranges (st : VisualizerV2.State float) (x y : float) :
  (forall a : float, (approx_exp a <? #0) = false) ->
  let metric := VisualizerV2.calculateWarpMetric st x y in
  (VisualizerV2.shape metric <? #0) = false
  /\ (#0 <? VisualizerV2.energyDensity metric) = false.
Proof.
  intros Hexp metric.
  assert (Hshape : (VisualizerV2.shape metric <? #0) = false)
    by apply (F_exp_not_below_zero _ Hexp).
  split; [exact Hshape |].
  rewrite ltb_zero_r in Hshape. rewrite ltb_zero_l.
  unfold metric, VisualizerV2.calculateWarpMetric in *. cbv zeta in *.
  cbn [VisualizerV2.shape VisualizerV2.energyDensity] in *.
  set (shape := Math_exp _) in *.
  cbn [div mul neg Math_abs Double].
  rewrite div_spec, mul_spec, opp_spec, abs_spec.
  change (Prim2SF (PrimFloat.mul (ofZ 8) Math_PI))
    with (S754_finite false 7074237752028440 (-48)).
  unfold SF64div, SF64mul, SFdiv, SFmul.
  destruct (Prim2SF (VisualizerV2.warpBubbleStrength st)) as [sw | sw | | sw mw ew];
    destruct (Prim2SF shape) as [ss | [] | | [] ms es];
    cbn [SFabs SFopp negb xorb]; try reflexivity; try discriminate Hshape.
  pose proof (binary_round_aux_sign true (Z.pos (mw * ms)) (ew + es) loc_Exact) as Hs.
  destruct (binary_round_aux prec emax true (Z.pos (mw * ms)) (ew + es) loc_Exact)
    as [s1 | s1 | | s1 m1 e1]; cbn [xorb]; subst; try reflexivity.
  destruct (SFdiv_core_binary prec emax (Z.pos m1) e1 (Z.pos 7074237752028440) (-48))
    as [[mz ez] lz].
  cbn [xorb].
  pose proof (binary_round_aux_sign true mz ez lz) as Hs.
  destruct (binary_round_aux prec emax true mz ez lz) as [s2 | s2 | | s2 m2 e2];
    subst; reflexivity.
Qed.
End WarpSigns.

(** ** Symmetry, zeros and direction of the 2D curves *)

Section Curves.
Import RealModel.
Context {NTS : NumberToString}.
Local Open Scope R_scope.

Lemma find_point1 (st : VisualizerV1.State R) (i : Z) (l : list Z) :
  In i l ->
  find (fun p => if Req_dec_T (VisualizerV1.x p) (IZR i) then true else false)
       (map (point1 st) l) = Some (point1 st i).
Proof.
  induction l as [| a l IH]; intros Hin; [destruct Hin |].
  cbn [map find point1 VisualizerV1.x ofZ RNumber].
  destruct (Req_dec_T (IZR a) (IZR i)) as [Heq | Hne].
  - apply eq_IZR in Heq. now subst a.
  - destruct Hin as [-> | Hin]; [contradiction | now apply IH].
Qed.

Lemma y_at1_time (t T : R) (i : Z) :
  (-10 <= i <= 10)%Z ->
  y_at1 (VisualizerV1.generateData (VisualizerV1.mkState t T "time")) (IZR i) =
  Some (R_toFixed (sign t * (IZR i - t) ^ 2 / 10) 2).
Proof.
  intros Hi. unfold y_at1.
  rewrite generateData_map, find_point1 by (apply zrange_In; exact Hi).
  cbn. f_equal. f_equal. rewrite R_pow_2. unfold R_ltb, sign.
  destruct (Rlt_dec t 0); field.
Qed.

Lemma y_at1_tensor (t T : R) (i : Z) :
  (-10 <= i <= 10)%Z ->
  y_at1 (VisualizerV1.generateData (VisualizerV1.mkState t T "tensor")) (IZR i) =
  Some (R_toFixed (T * IZR i ^ 2 / 10) 2).
Proof.
  intros Hi. unfold y_at1.
  rewrite generateData_map, find_point1 by (apply zrange_In; exact Hi).
  cbn. f_equal. f_equal. rewrite R_pow_2. field.
Qed.

(** X7.  At [t = 0] the time-mode curve is symmetric about [x = 0], in
    both versions and for every lambda: the records at [x] and at [-x]
    carry the same [y]. *)
Theorem time_mode_symmetric_at_zero (T lambda W rot : R) (i : Z) :
  (-10 <= i <= 10)%Z ->
  y_at1 (VisualizerV1.generateData (VisualizerV1.mkState 0 T "time")) (IZR i) =
  y_at1 (VisualizerV1.generateData (VisualizerV1.mkState 0 T "time")) (- IZR i)
  /\ y_at (VisualizerV2.generate2DData
             (VisualizerV2.mkState 0 T lambda W rot "time")) (IZR i) =
     y_at (VisualizerV2.generate2DData
             (VisualizerV2.mkState 0 T lambda W rot "time")) (- IZR i)
  /\ y_at (VisualizerV2.generate2DData
             (VisualizerV2.mkState 0 T lambda W rot "time")) (IZR i) <> None.
Proof.
  intros Hi. split; [| split].
  - rewrite <- opp_IZR. rewrite !y_at1_time by lia.
    rewrite opp_IZR. f_equal. f_equal. field.
  - rewrite <- opp_IZR. rewrite !y_at_generate2DData by lia.
    rewrite !value2D_time, opp_IZR.
    f_equal. f_equal.
    replace (- IZR i / 2) with (- (IZR i / 2)) by field.
    rewrite cos_neg. field.
  - rewrite y_at_generate2DData by lia. discriminate.
Qed.

(** X8.  In tensor mode the record at [x = 0] has [y = "0.00"], whatever
    the tensor value and lambda, in both versions. *)
Theorem tensor_mode_origin (t T lambda W rot : R) :
  y_at1 (VisualizerV1.generateData (VisualizerV1.mkState t T "tensor")) 0 = Some "0.00"
  /\ y_at (VisualizerV2.generate2DData
             (VisualizerV2.mkState t T lambda W rot "tensor")) 0 = Some "0.00".
Proof.
  split.
  - rewrite (y_at1_tensor t T (i := 0)) by lia.
    replace (T * 0 ^ 2 / 10) with 0 by field. now rewrite toFixed_0.
  - rewrite (y_at_generate2DData _ (i := 0)) by lia.
    rewrite value2D_tensor.
    replace (0 / 2) with 0 by field. rewrite sin_0.
    replace (T * 0 ^ 2 / 10 + lambda * 0) with 0 by field.
    now rewrite toFixed_0.
Qed.

(** X9.  With the warp strength at zero (its initial value) the warp
    plot is flat: every record of the 2D output has [y = "0.00"]. *)
Theorem warp_mode_flat_at_zero (t T lambda rot : R) :
  Forall (fun p => VisualizerV2.y p = "0.00")
    (VisualizerV2.generate2DData (VisualizerV2.mkState t T lambda 0 rot "warp"))
  /\ List.length
       (VisualizerV2.generate2DData (VisualizerV2.mkState t T lambda 0 rot "warp"))
     = 21%nat.
Proof.
  rewrite generate2DData_map. split.
  - apply Forall_forall. intros p Hp.
    apply in_map_iff in Hp as (i & <- & _).
    unfold point2D. cbn [VisualizerV2.y].
    change (ofZ i) with (IZR i). change (toFixed ?v 2) with (R_toFixed v 2).
    rewrite value2D_warp.
    replace (exp _ * 0 * 5) with 0 by ring.
    apply toFixed_0.
  - now rewrite length_map, zrange_length.
Qed.
End Curves.

(** ** Direction of the curves of the first version *)

Section Direction.
Import RealModel.
Context {NTS : NumberToString}.
Local Open Scope R_scope.

Lemma two_decimal_no_minus (s : string) :
  two_decimal_unsigned false s = true -> leading_minus s = false.
Proof.
  destruct s as [| c s]; [reflexivity |].
  destruct c as [[] [] [] [] [] [] [] []]; cbn; intros H;
    solve [reflexivity | discriminate].
Qed.

(** [toFixed(2)] writes a minus sign exactly for the values below zero. *)
Lemma R_toFixed_leading_minus (v : R) :
  Rabs v < 10 ^ 21 ->
  leading_minus (R_toFixed v 2) = if Rlt_dec v 0 then true else false.
Proof.
  intros Hv. unfold R_toFixed.
  destruct (Rlt_dec v 0) as [Hneg | Hpos]; [reflexivity |].
  rewrite Rabs_right in Hv by lra.
  destruct (Rle_dec (10 ^ 21) v) as [Hge | _]; [lra |].
  cbn [append]. apply two_decimal_no_minus, fixed_notation_two_decimal.
Qed.

Lemma zrange_grid (i : Z) : In i (zrange (-10) 10) -> (-10 <= i <= 10)%Z.
Proof.
  unfold zrange. intros Hi. apply in_map_iff in Hi as (k & <- & Hk).
  apply in_seq in Hk. cbn in Hk. lia.
Qed.

Lemma small_below_toFixed_limit (v : R) : Rabs v <= 1000 -> Rabs v < 10 ^ 21.
Proof. intros H. apply Rle_lt_trans with (r2 := 1000); [exact H | cbn; lra]. Qed.

(** X10.  The direction in which the curves of the first version open,
    for values within the slider range.  In time mode no [y] is negative
    when [t >= 0], and every [y] away from the vertex [x = t] carries a
    minus sign when [t < 0]; in tensor mode the same holds with the
    tensor value in place of [t] and the vertex at [x = 0]. *)
Theorem curve_direction (t T : R) :
  -10 <= t <= 10 -> -10 <= T <= 10 ->
  (0 <= t ->
   Forall (fun p => leading_minus (VisualizerV1.y p) = false)
     (VisualizerV1.generateData (VisualizerV1.mkState t T "time")))
  /\ (t < 0 ->
      Forall (fun p => VisualizerV1.x p <> t -> leading_minus (VisualizerV1.y p) = true)
        (VisualizerV1.generateData (VisualizerV1.mkState t T "time")))
  /\ (0 <= T ->
      Forall (fun p => leading_minus (VisualizerV1.y p) = false)
        (VisualizerV1.generateData (VisualizerV1.mkState t T "tensor")))
  /\ (T < 0 ->
      Forall (fun p => VisualizerV1.x p <> 0 -> leading_minus (VisualizerV1.y p) = true)
        (VisualizerV1.generateData (VisualizerV1.mkState t T "tensor"))).
Proof.
  intros Ht HT.
  assert (Htime : forall i, (-10 <= i <= 10)%Z ->
            VisualizerV1.y (point1 (VisualizerV1.mkState t T "time") i) =
            R_toFixed (sign t * ((IZR i - t) * (IZR i - t)) / 10) 2).
  { intros i Hi. cbn. f_equal. rewrite R_pow_2. unfold R_ltb, sign.
    destruct (Rlt_dec t 0); field. }
  assert (Htensor : forall i, (-10 <= i <= 10)%Z ->
            VisualizerV1.y (point1 (VisualizerV1.mkState t T "tensor") i) =
            R_toFixed (T * (IZR i * IZR i) / 10) 2).
  { intros i Hi. cbn. f_equal. rewrite R_pow_2. field. }
  assert (Hgrid : forall i, (-10 <= i <= 10)%Z -> -10 <= IZR i <= 10)
    by (intros i Hi; split; apply IZR_le; lia).
  assert (Hsq : forall i, (-10 <= i <= 10)%Z ->
            0 <= (IZR i - t) * (IZR i - t) <= 400
            /\ 0 <= IZR i * IZR i <= 100
            /\ - 1000 <= T * (IZR i * IZR i) <= 1000).
  { intros i Hi. pose proof (Hgrid i Hi) as Hx.
    assert (H0 : 0 <= (IZR i - t) * (IZR i - t)) by exact (Rle_0_sqr _).
    assert (H1 : 0 <= 400 - (IZR i - t) * (IZR i - t)).
    { replace (400 - (IZR i - t) * (IZR i - t))
        with ((20 - (IZR i - t)) * (20 + (IZR i - t))) by ring.
      apply Rmult_le_pos; lra. }
    assert (H3 : 0 <= IZR i * IZR i) by exact (Rle_0_sqr _).
    assert (H2 : 0 <= 100 - IZR i * IZR i).
    { replace (100 - IZR i * IZR i) with ((10 - IZR i) * (10 + IZR i)) by ring.
      apply Rmult_le_pos; lra. }
    assert (H4 : 0 <= 10 * (IZR i * IZR i) - T * (IZR i * IZR i)).
    { replace (10 * (IZR i * IZR i) - T * (IZR i * IZR i))
        with ((10 - T) * (IZR i * IZR i)) by ring.
      apply Rmult_le_pos; lra. }
    assert (H5 : 0 <= 10 * (IZR i * IZR i) + T * (IZR i * IZR i)).
    { replace (10 * (IZR i * IZR i) + T * (IZR i * IZR i))
        with ((10 + T) * (IZR i * IZR i)) by ring.
      apply Rmult_le_pos; lra. }
    repeat split; lra. }
  rewrite !generateData_map.
  split; [| split; [| split]]; intros Hsign; apply Forall_forall; intros p Hp;
    apply in_map_iff in Hp as (i & <- & Hi); apply zrange_grid in Hi;
    pose proof (Hgrid i Hi) as Hx;
    destruct (Hsq i Hi) as (Hq1 & Hq2 & Hq3).
  - rewrite Htime by exact Hi.
    assert (Hs : sign t = 1) by (unfold sign; destruct (Rlt_dec t 0); lra).
    rewrite Hs, R_toFixed_leading_minus.
    + destruct (Rlt_dec _ 0) as [Hneg | _]; [| reflexivity]. exfalso. lra.
    + apply small_below_toFixed_limit, Rabs_le. split; lra.
  - intros Hvertex. change (VisualizerV1.x (point1 _ i)) with (IZR i) in Hvertex.
    rewrite Htime by exact Hi.
    assert (Hs : sign t = -1) by (unfold sign; destruct (Rlt_dec t 0); lra).
    rewrite Hs, R_toFixed_leading_minus.
    + destruct (Rlt_dec _ 0) as [_ | Hpos]; [reflexivity |]. exfalso.
      assert (0 < (IZR i - t) * (IZR i - t)).
      { assert (Hne : IZR i - t <> 0) by lra.
        destruct (Rtotal_order (IZR i - t) 0) as [Hl | [He | Hg]]; [nra | lra | nra]. }
      lra.
    + apply small_below_toFixed_limit, Rabs_le. split; lra.
  - rewrite Htensor by exact Hi. rewrite R_toFixed_leading_minus.
    + destruct (Rlt_dec _ 0) as [Hneg | _]; [| reflexivity]. exfalso.
      assert (0 <= T * (IZR i * IZR i)) by nra. lra.
    + apply small_below_toFixed_limit, Rabs_le. split; lra.
  - intros Hvertex. change (VisualizerV1.x (point1 _ i)) with (IZR i) in Hvertex.
    rewrite Htensor by exact Hi. rewrite R_toFixed_leading_minus.
    + destruct (Rlt_dec _ 0) as [_ | Hpos]; [reflexivity |]. exfalso.
      assert (0 < IZR i * IZR i).
      { destruct (Rtotal_order (IZR i) 0) as [Hl | [He | Hg]]; [nra | lra | nra]. }
      assert (T * (IZR i * IZR i) < 0) by nra. lra.
    + apply small_below_toFixed_limit, Rabs_le. split; lra.
Qed.
End Direction.

(** ** The 3D surface *)

Lemma generate3DData_at {num : Type} {N : JSNumber num}
      (st : VisualizerV2.State num) (i j : Z) :
  -5 <= i <= 5 -> -5 <= j <= 5 ->
  nth_error (VisualizerV2.generate3DData st) (Z.to_nat ((i + 5) * 11 + (j + 5))) =
  Some (point3D st i j).
Proof.
  intros Hi Hj.
  replace (Z.to_nat ((i + 5) * 11 + (j + 5)))
    with (Z.to_nat (i + 5) * 11 + Z.to_nat (j + 5))%nat by lia.
  rewrite generate3DData_nth by lia.
  f_equal. f_equal; lia.
Qed.

Section Surface.
Import RealModel.
Context {NTS : NumberToString}.
Local Open Scope R_scope.

(** X13.  With the warp strength at zero, every record of the 3D output
    in warp mode is the numeral of [20 i], the numeral of [20 j] and
    ["0"], joined by commas: the surface is the flat grid. *)
Theorem warp_surface_flat_at_zero (t T lambda rot : R) (i j : Z) :
  (-5 <= i <= 5)%Z -> (-5 <= j <= 5)%Z ->
  nth_error
    (VisualizerV2.generate3DData (VisualizerV2.mkState t T lambda 0 rot "warp"))
    (Z.to_nat ((i + 5) * 11 + (j + 5)))
  = Some (int_numeral (i * 20) ++ "," ++ int_numeral (j * 20) ++ ",0")%string.
Proof.
  intros Hi Hj. rewrite generate3DData_at by assumption.
  unfold point3D, VisualizerV2.template3.
  assert (Hz : value3D (VisualizerV2.mkState t T lambda 0 rot "warp") (IZR i) (IZR j) = 0).
  { unfold value3D, VisualizerV2.calculateWarpMetric. cbn -[R_pow]. ring. }
  change (toString ?v) with (R_toString v).
  change (mul ?a ?b) with (a * b). change (ofZ ?z) with (IZR z).
  rewrite Hz, !scaled_coordinate_numeral by assumption.
  replace (0 * 20) with (IZR 0) by (simpl; lra).
  now rewrite R_toString_int by lia.
Qed.
End Surface.

Section SurfaceAtRest.
Import Float64.
Context {E : Float64.Engine}.
Local Open Scope js_scope.

Lemma value3D_radial (t T lambda W : float) (mode : string) (i j i' j' : Z) :
  (-5 <= i <= 5)%Z -> (-5 <= j <= 5)%Z -> (-5 <= i' <= 5)%Z -> (-5 <= j' <= 5)%Z ->
  (i * i + j * j = i' * i' + j' * j')%Z ->
  value3D (VisualizerV2.mkState t T lambda W #0 mode) #i #j =
  value3D (VisualizerV2.mkState t T lambda W #0 mode) #i' #j'.
Proof.
  intros Hi Hj Hi' Hj' Hnorm.
  destruct (rotation_zero Hi Hj) as [HX HY].
  destruct (rotation_zero Hi' Hj') as [HX' HY'].
  unfold value3D, VisualizerV2.calculateWarpMetric. cbv zeta.
  cbn [VisualizerV2.rotationAngle VisualizerV2.visualMode VisualizerV2.timeValue
       VisualizerV2.tensorValue VisualizerV2.lambdaValue VisualizerV2.warpBubbleStrength
       VisualizerV2.shape].
  rewrite !HX, !HY, !HX', !HY'.
  rewrite (grid_norm Hi Hj), (grid_norm Hi' Hj'), Hnorm.
  reflexivity.
Qed.

(** X11.  At the rotation angle zero, the angle of the component until
    the animation is started, the 3D surface is radially symmetric, in
    doubles and for every engine: two grid points at the same distance
    from the origin, [i^2 + j^2 = i'^2 + j'^2], get the same [z], in every
    mode; their records differ in the two coordinates only. *)
Theorem surface_radial_symmetry (t T lambda W : float) (mode : string) (i j i' j' : Z) :
  (-5 <= i <= 5)%Z -> (-5 <= j <= 5)%Z -> (-5 <= i' <= 5)%Z -> (-5 <= j' <= 5)%Z ->
  (i * i + j * j = i' * i' + j' * j')%Z ->
  let st := VisualizerV2.mkState t T lambda W #0 mode in
  exists z : float,
    nth_error (VisualizerV2.generate3DData st) (Z.to_nat ((i + 5) * 11 + (j + 5)))
      = Some (VisualizerV2.template3 (#i * #20) (#j * #20) (z * #20))
    /\ nth_error (VisualizerV2.generate3DData st) (Z.to_nat ((i' + 5) * 11 + (j' + 5)))
      = Some (VisualizerV2.template3 (#i' * #20) (#j' * #20) (z * #20)).
Proof.
  intros Hi Hj Hi' Hj' Hnorm st.
  exists (value3D st #i #j). split.
  - now rewrite generate3DData_at.
  - rewrite generate3DData_at by assumption. unfold point3D, st.
    now rewrite (value3D_radial t T lambda W mode Hi Hj Hi' Hj' Hnorm).
Qed.

(** X12.  In warp mode and at the rotation angle zero, the 2D plot is the
    section [j = 0] of the 3D surface, in doubles and for every engine: for
    every coordinate [i] of the 3D grid, the double that the 2D output
    formats at [x = i] is the [z] of the 3D record at [(i, 0)]. *)
Theorem warp_plot_is_surface_section (t T lambda W : float) (i : Z) :
  (-5 <= i <= 5)%Z ->
  let st := VisualizerV2.mkState t T lambda W #0 "warp" in
  exists v : float,
    nth_error (VisualizerV2.generate2DData st) (Z.to_nat (i + 10))
      = Some {| VisualizerV2.x := #i; VisualizerV2.y := toFixed v 2 |}
    /\ nth_error (VisualizerV2.generate3DData st) (Z.to_nat ((i + 5) * 11 + (0 + 5)))
       = Some (VisualizerV2.template3 (#i * #20) (#0 * #20) (v * #20)).
Proof.
  intros Hi st. exists (value2D st #i). split.
  - rewrite generate2DData_at by lia. reflexivity.
  - rewrite generate3DData_at by lia. unfold point3D. f_equal. f_equal. f_equal.
    destruct (rotation_zero (i := i) (j := 0) Hi ltac:(lia)) as [HX HY].
    unfold value3D, value2D, VisualizerV2.calculateWarpMetric, st. cbv zeta.
    cbn [VisualizerV2.rotationAngle VisualizerV2.visualMode VisualizerV2.timeValue
         VisualizerV2.tensorValue VisualizerV2.lambdaValue VisualizerV2.warpBubbleStrength
         VisualizerV2.shape String.eqb Ascii.eqb Bool.eqb].
    rewrite !HX, !HY. reflexivity.
Qed.
End SurfaceAtRest.

(** ** The auto-rotation *)

Lemma nextRotationAngle_mod (a : Z) :
  0 <= a -> nextRotationAngle a = (a + 1) mod 360.
Proof. intros Ha. unfold nextRotationAngle. apply Z.rem_mod_nonneg; lia. Qed.

(** X14.  The auto-rotation keeps the angle a whole number of degrees in
    [0, 360): from such an angle, [n] animation frames lead to
    [(angle + n) mod 360], which is again in [0, 360), and 360 frames lead
    back to the angle they started from. *)
Theorem rotation_angle_cycle (angle : Z) (n : nat) :
  0 <= angle < 360 ->
  Nat.iter n nextRotationAngle angle = (angle + Z.of_nat n) mod 360
  /\ 0 <= Nat.iter n nextRotationAngle angle < 360
  /\ Nat.iter 360 nextRotationAngle angle = angle.
Proof.
  intros Ha.
  assert (Hiter : forall k : nat,
            Nat.iter k nextRotationAngle angle = (angle + Z.of_nat k) mod 360).
  { induction k as [| k IH].
    - change (Nat.iter 0 nextRotationAngle angle) with angle.
      rewrite Z.add_0_r. symmetry. apply Z.mod_small. exact Ha.
    - change (Nat.iter (S k) nextRotationAngle angle)
        with (nextRotationAngle (Nat.iter k nextRotationAngle angle)).
      rewrite IH.
      rewrite nextRotationAngle_mod by (apply Z.mod_pos_bound; lia).
      rewrite Zplus_mod_idemp_l. f_equal. lia. }
  split; [apply Hiter | split].
  - rewrite Hiter. apply Z.mod_pos_bound. lia.
  - rewrite Hiter.
    replace (angle + Z.of_nat 360) with (angle + 1 * 360) by lia.
    rewrite Z_mod_plus_full. apply Z.mod_small. exact Ha.
Qed.

(** ** The alert of the first version and the plot *)

Section Alert.
Import RealModel.
Context {NTS : NumberToString}.
Local Open Scope R_scope.

Lemma alert_symmetric_inv (st : VisualizerV1.State R) :
  alertDescription R_strict_eq st =
    "At t=0, this represents the 'present moment' in our reference frame. The spacetime curvature is symmetric." ->
  VisualizerV1.mode st = "time" /\ VisualizerV1.timeValue st = 0.
Proof.
  unfold alertDescription, R_strict_eq.
  destruct (String.eqb_spec (VisualizerV1.mode st) "time") as [Hm | Hm].
  - change (ofZ 0) with 0.
    destruct (Req_dec_T (VisualizerV1.timeValue st) 0) as [Ht | Ht].
    + intros _. now split.
    + destruct (ltb 0 (VisualizerV1.timeValue st)); discriminate.
  - change (ofZ 0) with 0.
    destruct (Req_dec_T (VisualizerV1.tensorValue st) 0);
      [| destruct (ltb 0 (VisualizerV1.tensorValue st))]; discriminate.
Qed.

Lemma alert_empty_inv (st : VisualizerV1.State R) :
  alertDescription R_strict_eq st =
    "When T=0, this represents empty space with no stress-energy content." ->
  VisualizerV1.mode st <> "time" /\ VisualizerV1.tensorValue st = 0.
Proof.
  unfold alertDescription, R_strict_eq.
  destruct (String.eqb_spec (VisualizerV1.mode st) "time") as [Hm | Hm].
  - change (ofZ 0) with 0.
    destruct (Req_dec_T (VisualizerV1.timeValue st) 0);
      [| destruct (ltb 0 (VisualizerV1.timeValue st))]; discriminate.
  - change (ofZ 0) with 0.
    destruct (Req_dec_T (VisualizerV1.tensorValue st) 0) as [HT | HT].
    + intros _. now split.
    + destruct (ltb 0 (VisualizerV1.tensorValue st)); discriminate.
Qed.

(** X15.  The alert of the first version agrees with the plot above it.
    Whenever it says that the curvature is symmetric, the plotted data are
    symmetric about [x = 0]; whenever it says that space is empty, every
    plotted [y] is ["0.00"]. *)
Theorem alert_agrees_with_plot (st : VisualizerV1.State R) :
  (alertDescription R_strict_eq st =
     "At t=0, this represents the 'present moment' in our reference frame. The spacetime curvature is symmetric." ->
   forall i : Z, (-10 <= i <= 10)%Z ->
     y_at1 (VisualizerV1.generateData st) (IZR i) =
     y_at1 (VisualizerV1.generateData st) (- IZR i)
     /\ y_at1 (VisualizerV1.generateData st) (IZR i) <> None)
  /\ (alertDescription R_strict_eq st =
        "When T=0, this represents empty space with no stress-energy content." ->
      Forall (fun p => VisualizerV1.y p = "0.00") (VisualizerV1.generateData st)).
Proof.
  split.
  - intros Halert i Hi. apply alert_symmetric_inv in Halert as [Hm Ht].
    destruct st as [t T m]. cbn in Hm, Ht. subst m t. split.
    + rewrite <- opp_IZR. rewrite !y_at1_time by lia.
      rewrite opp_IZR. f_equal. f_equal. field.
    + rewrite y_at1_time by lia. discriminate.
  - intros Halert. apply alert_empty_inv in Halert as [Hm HT].
    destruct st as [t T m]. cbn in Hm, HT. subst T.
    rewrite generateData_map. apply Forall_forall. intros p Hp.
    apply in_map_iff in Hp as (i & <- & _).
    unfold point1. cbn [VisualizerV1.y VisualizerV1.mode VisualizerV1.tensorValue].
    apply String.eqb_neq in Hm. rewrite Hm.
    change (toFixed ?v 2) with (R_toFixed v 2).
    change (mul ?a ?b) with (a * b). change (div ?a ?b) with (a / b).
    replace (0 * Math_pow (ofZ i) (ofZ 2) / ofZ 10) with 0
      by (change (ofZ 10) with 10; field).
    apply toFixed_0.
Qed.
End Alert.

(** ** The circles of the 3D view *)

Lemma is_digit_not_comma (c : ascii) : is_digit c = true -> Ascii.eqb c "," = false.
Proof.
  destruct c as [[] [] [] [] [] [] [] []]; cbn; intros H;
    solve [reflexivity | discriminate].
Qed.

Lemma all_digits_no_comma (s : string) : all_digits s = true -> no_comma s = true.
Proof.
  induction s as [| c s IH]; [reflexivity |].
  cbn. intros H. apply andb_true_iff in H as [Hc Hs].
  now rewrite (is_digit_not_comma _ Hc), IH.
Qed.

Lemma int_numeral_no_comma (z : Z) : no_comma (RealModel.int_numeral z) = true.
Proof.
  unfold RealModel.int_numeral.
  destruct (z <? 0)%Z; cbn [append no_comma];
    try (change (Ascii.eqb "-" ",") with false; cbn [negb andb]);
    apply all_digits_no_comma, all_digits_decimal_digits.
Qed.

Section Circles.
Import RealModel.
Context {NTS : NumberToString}.
Local Open Scope R_scope.

Variable Number : string -> R.

Lemma R_toString_no_comma :
  (forall v : R, no_comma (number_to_string v) = true) ->
  forall v : R, no_comma (R_toString v) = true.
Proof.
  intros Hnts v. unfold R_toString.
  destruct (Req_dec_T v (IZR (Zfloor v))); [| apply Hnts].
  destruct (Rle_dec (Rabs v) 9007199254740992); [apply int_numeral_no_comma | apply Hnts].
Qed.

Lemma renderPoint_template3 (st : VisualizerV2.State R) (a b c : R) :
  (forall v : R, no_comma (number_to_string v) = true) ->
  renderPoint Number st (VisualizerV2.template3 a b c) =
  Some {| SvgCircle.cx := Number (R_toString a) - Number (R_toString b) / 2;
          SvgCircle.cy := Number (R_toString b) / 2 + Number (R_toString c);
          SvgCircle.r := "1";
          SvgCircle.fill :=
            if String.eqb (VisualizerV2.visualMode st) "warp" then
              ("hsl(" ++ R_toString (240 + Number (R_toString c)) ++ ", 70%, "
               ++ R_toString (50 + VisualizerV2.warpBubbleStrength st * 5)
               ++ "%)")%string
            else
              ("hsl(" ++ R_toString (240 + Number (R_toString c)) ++ ", 70%, 50%)")%string |}.
Proof.
  intros Hnts. unfold renderPoint, VisualizerV2.template3.
  change (toString ?v) with (R_toString v).
  rewrite fields_three by (apply R_toString_no_comma; exact Hnts).
  reflexivity.
Qed.

(** X17.  The colour of a circle in warp mode.  For a state within the
    slider ranges, the lightness that the render writes into the [hsl]
    colour, [50 + 5 W], is between 0 and 100. *)
Theorem warp_fill_lightness (st : VisualizerV2.State R) (i j : Z) :
  (forall v : R, no_comma (number_to_string v) = true) ->
  in_range st -> VisualizerV2.visualMode st = "warp" ->
  (-5 <= i <= 5)%Z -> (-5 <= j <= 5)%Z ->
  exists (circle : SvgCircle.t R) (hue lightness : R),
    nth_error (renderSurface Number st) (Z.to_nat ((i + 5) * 11 + (j + 5)))
      = Some (Some circle)
    /\ SvgCircle.fill circle =
       ("hsl(" ++ R_toString hue ++ ", 70%, " ++ R_toString lightness ++ "%)")%string
    /\ lightness = 50 + 5 * VisualizerV2.warpBubbleStrength st
    /\ 0 <= lightness <= 100.
Proof.
  intros Hnts (_ & _ & _ & HW & _) Hmode Hi Hj.
  unfold renderSurface. rewrite nth_error_map, generate3DData_at by assumption.
  unfold point3D. cbn [option_map].
  rewrite renderPoint_template3 by exact Hnts.
  rewrite Hmode. cbn [String.eqb Ascii.eqb Bool.eqb].
  eexists. exists (240 + Number (R_toString (value3D st (IZR i) (IZR j) * 20))).
  exists (50 + 5 * VisualizerV2.warpBubbleStrength st).
  split; [reflexivity |]. cbn [SvgCircle.fill].
  split; [| split; [reflexivity | lra]].
  replace (50 + VisualizerV2.warpBubbleStrength st * 5)
    with (50 + 5 * VisualizerV2.warpBubbleStrength st) by ring.
  reflexivity.
Qed.
End Circles.

Section CirclesOfDoubles.
Import Float64.
Context {E : Float64.Engine}.
Local Open Scope js_scope.

Variable Number : string -> float.

Lemma F_toString_no_comma :
  (forall v : float, no_comma (shortest_numeral v) = true) ->
  forall v : float, no_comma (toString v) = true.
Proof.
  intros Hshort v. cbn [toString Double]. unfold F_toString.
  destruct (Prim2SF v) as [s | [] | | s m e]; try reflexivity.
  destruct (integral v && PrimFloat.leb (abs v) 9007199254740992)%bool;
    [apply int_numeral_no_comma | apply Hshort].
Qed.

Lemma F_toString_scaled (k : Z) :
  (-5 <= k <= 5)%Z -> toString ((#k : float) * #20) = RealModel.int_numeral (k * 20).
Proof. intros Hk. on_grid5 Hk; reflexivity. Qed.

Lemma projection_exact (i j : Z) :
  (-5 <= i <= 5)%Z -> (-5 <= j <= 5)%Z ->
  (#(i * 20) : float) - #(j * 20) / #2 = #(20 * i - 10 * j)
  /\ (#(j * 20) : float) / #2 = #(10 * j).
Proof. intros Hi Hj. on_grid5 Hi; on_grid5 Hj; split; reflexivity. Qed.

(** X16.  Where the render puts a grid point, in doubles.  When no
    numeral contains a comma and [Number] reads the numerals of the scaled
    coordinates back, the record of the grid point [(i, j)] splits into
    the numerals of [20 i] and [20 j] and a third field, and the circle
    drawn for it has [cx = 20 i - 10 j], which lies in [-150, 150], has
    [cy] equal to [10 j] plus the number read from that third field, and
    has the radius ["1"]. *)
Theorem render_projection (st : VisualizerV2.State float) (i j : Z) :
  (forall v : float, no_comma (shortest_numeral v) = true) ->
  (forall k : Z, (-5 <= k <= 5)%Z -> Number (RealModel.int_numeral (k * 20)) = #(k * 20)) ->
  (-5 <= i <= 5)%Z -> (-5 <= j <= 5)%Z ->
  exists (circle : SvgCircle.t float) (third : string),
    nth_error (map fields (VisualizerV2.generate3DData st))
              (Z.to_nat ((i + 5) * 11 + (j + 5)))
      = Some [RealModel.int_numeral (i * 20); RealModel.int_numeral (j * 20); third]
    /\ nth_error (renderSurface Number st) (Z.to_nat ((i + 5) * 11 + (j + 5)))
      = Some (Some circle)
    /\ SvgCircle.cx circle = #(20 * i - 10 * j)
    /\ (-150 <= 20 * i - 10 * j <= 150)%Z
    /\ SvgCircle.cy circle = #(10 * j) + Number third
    /\ SvgCircle.r circle = "1".
Proof.
  intros Hshort HNumber Hi Hj.
  pose proof (F_toString_no_comma Hshort) as Hcomma.
  unfold renderSurface. rewrite !nth_error_map, generate3DData_at by assumption.
  cbn [option_map]. unfold point3D, renderPoint, VisualizerV2.template3.
  rewrite fields_three by apply Hcomma.
  rewrite !F_toString_scaled by assumption.
  cbn [map]. rewrite !HNumber by assumption.
  destruct (projection_exact Hi Hj) as [Hcx Hcy].
  eexists. eexists. split; [reflexivity |]. split; [reflexivity |].
  cbn [SvgCircle.cx SvgCircle.cy SvgCircle.r].
  rewrite Hcx, Hcy. repeat split; lia.
Qed.
End CirclesOfDoubles.

(** ** The output contract of the first version, and the height of the plots *)

Section Heights.
Import RealModel.
Context {NTS : NumberToString}.
Local Open Scope R_scope.

Lemma grid_squares (a : R) (i : Z) :
  -10 <= a <= 10 -> (-10 <= i <= 10)%Z ->
  0 <= (IZR i - a) * (IZR i - a) <= 400 /\ 0 <= IZR i * IZR i <= 100
  /\ - (10 * (IZR i * IZR i)) <= a * (IZR i * IZR i) <= 10 * (IZR i * IZR i).
Proof.
  intros Ha Hi.
  assert (Hx : -10 <= IZR i <= 10) by (split; apply IZR_le; lia).
  assert (H0 : 0 <= (IZR i - a) * (IZR i - a)) by exact (Rle_0_sqr _).
  assert (H1 : 0 <= 400 - (IZR i - a) * (IZR i - a)).
  { replace (400 - (IZR i - a) * (IZR i - a))
      with ((20 - (IZR i - a)) * (20 + (IZR i - a))) by ring.
    apply Rmult_le_pos; lra. }
  assert (H3 : 0 <= IZR i * IZR i) by exact (Rle_0_sqr _).
  assert (H2 : 0 <= 100 - IZR i * IZR i).
  { replace (100 - IZR i * IZR i) with ((10 - IZR i) * (10 + IZR i)) by ring.
    apply Rmult_le_pos; lra. }
  assert (H4 : 0 <= 10 * (IZR i * IZR i) - a * (IZR i * IZR i)).
  { replace (10 * (IZR i * IZR i) - a * (IZR i * IZR i))
      with ((10 - a) * (IZR i * IZR i)) by ring.
    apply Rmult_le_pos; lra. }
  assert (H5 : 0 <= 10 * (IZR i * IZR i) + a * (IZR i * IZR i)).
  { replace (10 * (IZR i * IZR i) + a * (IZR i * IZR i))
      with ((10 + a) * (IZR i * IZR i)) by ring.
    apply Rmult_le_pos; lra. }
  repeat split; lra.
Qed.

(** X18.  How high the 2D plot of the second version can go.  For a state
    within the slider ranges, every [y] is the formatting of a value of
    size at most 50 in warp mode, 45 in time mode and 105 in tensor mode. *)
Theorem plot_height (st : VisualizerV2.State R) :
  in_range st ->
  Forall (fun p => exists v : R,
            VisualizerV2.y p = R_toFixed v 2
            /\ Rabs v <= (if String.eqb (VisualizerV2.visualMode st) "warp" then 50
                          else if String.eqb (VisualizerV2.visualMode st) "time" then 45
                          else 105))
    (VisualizerV2.generate2DData st).
Proof.
  intros (Ht & HT & Hl & HW & _).
  rewrite generate2DData_map. apply Forall_forall. intros p Hp.
  apply in_map_iff in Hp as (i & <- & Hi). apply zrange_grid in Hi.
  exists (value2D st (IZR i)). split; [reflexivity |].
  unfold value2D.
  destruct (String.eqb (VisualizerV2.visualMode st) "warp").
  - pose proof (shape_bounds st (IZR i) 0) as Hs. cbn in Hs |- *.
    apply Rabs_le.
    assert (H1 : 0 <= (10 - VisualizerV2.warpBubbleStrength st)
                      * VisualizerV2.shape (VisualizerV2.calculateWarpMetric st (IZR i) 0))
      by (apply Rmult_le_pos; cbn; lra).
    assert (H2 : 0 <= (10 + VisualizerV2.warpBubbleStrength st)
                      * VisualizerV2.shape (VisualizerV2.calculateWarpMetric st (IZR i) 0))
      by (apply Rmult_le_pos; cbn; lra).
    cbn in H1, H2. split; nra.
  - destruct (String.eqb (VisualizerV2.visualMode st) "time"); cbn.
    + rewrite R_pow_2.
      destruct (grid_squares Ht Hi) as (Hq & _ & _).
      pose proof (COS_bound (IZR i / 2)) as Hc.
      assert (Hlc : -5 <= VisualizerV2.lambdaValue st * cos (IZR i / 2) <= 5).
      { assert (0 <= (5 - VisualizerV2.lambdaValue st) * (1 - cos (IZR i / 2)))
          by (apply Rmult_le_pos; lra).
        assert (0 <= (5 + VisualizerV2.lambdaValue st) * (1 - cos (IZR i / 2)))
          by (apply Rmult_le_pos; lra).
        assert (0 <= (5 - VisualizerV2.lambdaValue st) * (1 + cos (IZR i / 2)))
          by (apply Rmult_le_pos; lra).
        assert (0 <= (5 + VisualizerV2.lambdaValue st) * (1 + cos (IZR i / 2)))
          by (apply Rmult_le_pos; lra).
        split; nra. }
      unfold R_ltb. apply Rabs_le.
      destruct (Rlt_dec _ 0); split; lra.
    + rewrite R_pow_2.
      destruct (grid_squares HT Hi) as (_ & Hq & HTq).
      pose proof (SIN_bound (IZR i / 2)) as Hc.
      assert (Hlc : -5 <= VisualizerV2.lambdaValue st * sin (IZR i / 2) <= 5).
      { assert (0 <= (5 - VisualizerV2.lambdaValue st) * (1 - sin (IZR i / 2)))
          by (apply Rmult_le_pos; lra).
        assert (0 <= (5 + VisualizerV2.lambdaValue st) * (1 - sin (IZR i / 2)))
          by (apply Rmult_le_pos; lra).
        assert (0 <= (5 - VisualizerV2.lambdaValue st) * (1 + sin (IZR i / 2)))
          by (apply Rmult_le_pos; lra).
        assert (0 <= (5 + VisualizerV2.lambdaValue st) * (1 + sin (IZR i / 2)))
          by (apply Rmult_le_pos; lra).
        split; nra. }
      apply Rabs_le. split; lra.
Qed.

(** X19.  The output contract of the first version, for values within
    the slider range and either mode: [generateData] returns 21 records,
    their [x] fields are the integers from [-10] to [10] in ascending
    order, and every [y] is a two-decimal numeral. *)
Theorem generateData_contract (t T : R) (m : string) :
  -10 <= t <= 10 -> -10 <= T <= 10 ->
  let out := VisualizerV1.generateData (VisualizerV1.mkState t T m) in
  List.length out = 21%nat
  /\ map (@VisualizerV1.x R) out =
     [-10; -9; -8; -7; -6; -5; -4; -3; -2; -1; 0; 1; 2; 3; 4; 5; 6; 7; 8; 9; 10]
  /\ Forall (fun p => is_two_decimal (VisualizerV1.y p) = true) out.
Proof.
  intros Ht HT out. unfold out. rewrite generateData_map.
  split; [| split].
  - now rewrite length_map, zrange_length.
  - rewrite map_map. reflexivity.
  - apply Forall_forall. intros p Hp.
    apply in_map_iff in Hp as (i & <- & Hi). apply zrange_grid in Hi.
    unfold point1. cbn [VisualizerV1.y VisualizerV1.mode VisualizerV1.timeValue
                         VisualizerV1.tensorValue].
    change (toFixed ?v 2) with (R_toFixed v 2).
    apply R_toFixed_two_decimal, small_below_toFixed_limit.
    destruct (String.eqb m "time"); cbn; rewrite R_pow_2.
    + destruct (grid_squares Ht Hi) as (Hq & _ & _).
      unfold R_ltb. apply Rabs_le. destruct (Rlt_dec t 0); split; lra.
    + destruct (grid_squares HT Hi) as (_ & Hq & HTq).
      apply Rabs_le. split; lra.
Qed.
End Heights.

(** ** These theorems at concrete states *)

Section MoreInstances.
Import RealModel.
Local Open Scope R_scope.
Local Existing Instance no_numeral.

Lemma no_numeral_no_comma : forall v : R, no_comma (number_to_string v) = true.
Proof. intros v. reflexivity. Qed.

Lemma time_tensor_mode_independence_witness :
  let st1 := VisualizerV2.mkState 1 2 3 4 90 "time" in
  let st2 := VisualizerV2.mkState 1 7 3 (-4) 90 "time" in
  (VisualizerV2.visualMode st1 = "time" /\ VisualizerV2.visualMode st2 = "time" /\
   VisualizerV2.timeValue st1 = VisualizerV2.timeValue st2 /\
   VisualizerV2.lambdaValue st1 = VisualizerV2.lambdaValue st2 /\
   VisualizerV2.rotationAngle st1 = VisualizerV2.rotationAngle st2) /\
  (VisualizerV2.generate2DData st1 = VisualizerV2.generate2DData st2
   /\ VisualizerV2.generate3DData st1 = VisualizerV2.generate3DData st2).
Proof.
  intros st1 st2. split; [repeat split |].
  destruct (time_tensor_mode_independence st1 st2
              (or_introl (conj eq_refl (conj eq_refl eq_refl))) eq_refl) as [H2D H3D].
  split; [exact H2D | exact (H3D eq_refl)].
Defined.

Lemma records_split_in_three_witness :
  let st := VisualizerV2.mkState 0 0 0 0 0 "tensor" in
  ((forall v : R, no_comma (toString v) = true) /\ (1 <= 10)%nat /\ (2 <= 10)%nat) /\
  exists record : string,
    nth_error (VisualizerV2.generate3DData st) (1 * 11 + 2) = Some record
    /\ fields record =
       [toString (IZR (-5 + Z.of_nat 1) * 20);
        toString (IZR (-5 + Z.of_nat 2) * 20);
        toString (value3D st (IZR (-5 + Z.of_nat 1)) (IZR (-5 + Z.of_nat 2)) * 20)].
Proof.
  intros st.
  assert (Hcomma : forall v : R, no_comma (toString v) = true)
    by exact (R_toString_no_comma no_numeral_no_comma).
  split; [split; [exact Hcomma | split; lia] |].
  exact (records_split_in_three st (i_index := 1) (j_index := 2) Hcomma
           ltac:(lia) ltac:(lia)).
Defined.

Lemma warp_mode_even_witness :
  (-10 <= 3 <= 10)%Z /\
  exists s : string,
    y_at (VisualizerV2.generate2DData (VisualizerV2.mkState 0 0 0 (1 / 2) 0 "warp")) 3
      = Some s
    /\ y_at (VisualizerV2.generate2DData (VisualizerV2.mkState 0 0 0 (1 / 2) 0 "warp")) (- 3)
      = Some s.
Proof.
  split; [lia |].
  exact (warp_mode_even 0 0 0 (1 / 2) 0 (i := 3) ltac:(lia)).
Defined.

Lemma warp_bubble_wall_witness :
  ((-10 <= -5 <= 10)%Z /\ Rabs (-5) = 1 / 2 * 10) /\
  exists v : R,
    y_at (VisualizerV2.generate2DData (VisualizerV2.mkState 0 0 0 (1 / 2) 0 "warp")) (-5)
      = Some (R_toFixed v 2)
    /\ Rabs v <= 5 * Rabs (1 / 2)
    /\ v = 5 * (1 / 2).
Proof.
  assert (Hwall : Rabs (-5) = 1 / 2 * 10) by (rewrite Rabs_left; lra).
  split; [split; [lia | exact Hwall] |].
  destruct (warp_bubble_wall 0 0 0 (1 / 2) 0 (i := -5) ltac:(lia))
    as (v & Hy & Hle & Hpeak).
  exists v. split; [exact Hy | split; [exact Hle | exact (Hpeak Hwall)]].
Defined.

Lemma time_mode_symmetric_at_zero_witness :
  (-10 <= 4 <= 10)%Z /\
  (y_at1 (VisualizerV1.generateData (VisualizerV1.mkState 0 1 "time")) 4 =
   y_at1 (VisualizerV1.generateData (VisualizerV1.mkState 0 1 "time")) (- 4)
   /\ y_at (VisualizerV2.generate2DData (VisualizerV2.mkState 0 1 2 0 0 "time")) 4 =
      y_at (VisualizerV2.generate2DData (VisualizerV2.mkState 0 1 2 0 0 "time")) (- 4)
   /\ y_at (VisualizerV2.generate2DData (VisualizerV2.mkState 0 1 2 0 0 "time")) 4
      <> None).
Proof.
  split; [lia |].
  exact (time_mode_symmetric_at_zero 1 2 0 0 (i := 4) ltac:(lia)).
Defined.

Lemma curve_direction_witness :
  (-10 <= 3 <= 10 /\ -10 <= -2 <= 10 /\ 0 <= 3 /\ -2 < 0) /\
  (Forall (fun p => leading_minus (VisualizerV1.y p) = false)
     (VisualizerV1.generateData (VisualizerV1.mkState 3 (-2) "time"))
   /\ Forall (fun p => VisualizerV1.x p <> 0 -> leading_minus (VisualizerV1.y p) = true)
        (VisualizerV1.generateData (VisualizerV1.mkState 3 (-2) "tensor"))).
Proof.
  split; [lra |].
  destruct (curve_direction (t := 3) (T := -2) ltac:(lra) ltac:(lra))
    as (Hup & _ & _ & Hdown).
  split; [exact (Hup ltac:(lra)) | exact (Hdown ltac:(lra))].
Defined.

Lemma warp_surface_flat_at_zero_witness :
  ((-5 <= -5 <= 5)%Z /\ (-5 <= 5 <= 5)%Z) /\
  nth_error
    (VisualizerV2.generate3DData (VisualizerV2.mkState 1 2 3 0 45 "warp"))
    (Z.to_nat ((-5 + 5) * 11 + (5 + 5)))
  = Some "-100,100,0".
Proof.
  split; [lia |].
  exact (warp_surface_flat_at_zero 1 2 3 45 (i := -5) (j := 5) ltac:(lia) ltac:(lia)).
Defined.

Lemma rotation_angle_cycle_witness :
  (0 <= 359 < 360)%Z /\
  (Nat.iter 1 nextRotationAngle 359%Z = ((359 + Z.of_nat 1) mod 360)%Z
   /\ (0 <= Nat.iter 1 nextRotationAngle 359%Z < 360)%Z
   /\ Nat.iter 360 nextRotationAngle 359%Z = 359%Z).
Proof.
  split; [lia |].
  exact (rotation_angle_cycle (angle := 359%Z) 1 ltac:(lia)).
Defined.

Lemma alert_agrees_with_plot_witness :
  let st := VisualizerV1.mkState 0 5 "time" in
  alertDescription R_strict_eq st =
    "At t=0, this represents the 'present moment' in our reference frame. The spacetime curvature is symmetric."
  /\ y_at1 (VisualizerV1.generateData st) 3 = y_at1 (VisualizerV1.generateData st) (- 3)
  /\ y_at1 (VisualizerV1.generateData st) 3 <> None.
Proof.
  intros st.
  assert (Halert : alertDescription R_strict_eq st =
    "At t=0, this represents the 'present moment' in our reference frame. The spacetime curvature is symmetric.").
  { unfold alertDescription, R_strict_eq, st. cbn.
    destruct (Req_dec_T 0 0) as [_ | Hne]; [reflexivity | contradiction]. }
  split; [exact Halert |].
  exact (proj1 (alert_agrees_with_plot st) Halert 3%Z ltac:(lia)).
Defined.

Lemma warp_fill_lightness_witness :
  let st := VisualizerV2.mkState 0 0 0 10 0 "warp" in
  ((forall v : R, no_comma (number_to_string v) = true)
   /\ in_range st /\ VisualizerV2.visualMode st = "warp"
   /\ (-5 <= 0 <= 5)%Z /\ (-5 <= 0 <= 5)%Z) /\
  exists (circle : SvgCircle.t R) (hue lightness : R),
    nth_error (renderSurface integer_Number st) (Z.to_nat ((0 + 5) * 11 + (0 + 5)))
      = Some (Some circle)
    /\ SvgCircle.fill circle =
       ("hsl(" ++ R_toString hue ++ ", 70%, " ++ R_toString lightness ++ "%)")%string
    /\ lightness = 50 + 5 * VisualizerV2.warpBubbleStrength st
    /\ 0 <= lightness <= 100.
Proof.
  intros st.
  assert (Hrange : in_range st) by (unfold in_range, st; cbn; lra).
  split; [split; [exact no_numeral_no_comma | split; [exact Hrange | split; [reflexivity | lia]]] |].
  exact (warp_fill_lightness integer_Number (st := st) (i := 0) (j := 0)
           no_numeral_no_comma Hrange eq_refl ltac:(lia) ltac:(lia)).
Defined.

Lemma plot_height_witness :
  let st := VisualizerV2.mkState (-10) 10 5 (-10) 0 "tensor" in
  in_range st /\
  Forall (fun p => exists v : R,
            VisualizerV2.y p = R_toFixed v 2
            /\ Rabs v <= (if String.eqb (VisualizerV2.visualMode st) "warp" then 50
                          else if String.eqb (VisualizerV2.visualMode st) "time" then 45
                          else 105))
    (VisualizerV2.generate2DData st).
Proof.
  intros st.
  assert (Hrange : in_range st) by (unfold in_range, st; cbn; lra).
  split; [exact Hrange |].
  exact (plot_height Hrange).
Defined.

Lemma generateData_contract_witness :
  (-10 <= 10 <= 10 /\ -10 <= -10 <= 10) /\
  (let out := VisualizerV1.generateData (VisualizerV1.mkState 10 (-10) "time") in
   List.length out = 21%nat
   /\ map (@VisualizerV1.x R) out =
      [-10; -9; -8; -7; -6; -5; -4; -3; -2; -1; 0; 1; 2; 3; 4; 5; 6; 7; 8; 9; 10]
   /\ Forall (fun p => is_two_decimal (VisualizerV1.y p) = true) out).
Proof.
  split; [lra |].
  exact (generateData_contract (t := 10) (T := -10) "time" ltac:(lra) ltac:(lra)).
Defined.
End MoreInstances.

(** ** The theorems on doubles at concrete states *)

Section DoubleInstances.
Import Float64.
Local Open Scope js_scope.
Local Existing Instance silent_engine.

Lemma silent_engine_no_comma : forall v : float, no_comma (shortest_numeral v) = true.
Proof. intros v. reflexivity. Qed.

Lemma silent_engine_exp : forall a : float, (approx_exp a <? #0) = false.
Proof. intros a. reflexivity. Qed.

Lemma integer_Number64_scaled (k : Z) :
  (-5 <= k <= 5)%Z -> integer_Number64 (RealModel.int_numeral (k * 20)) = #(k * 20).
Proof. intros Hk. on_grid5 Hk; reflexivity. Qed.

Lemma time_mode_formula_witness :
  (-10 <= 3 <= 10)%Z /\
  nth_error
    (VisualizerV2.generate2DData (VisualizerV2.mkState (#0 : float) #1 #2 #0 #0 "time"))
    (Z.to_nat (3 + 10)) =
    Some {| VisualizerV2.x := #3;
            VisualizerV2.y :=
              toFixed (time_sign #0 * (Math_pow (#3 - #0) #2 / #10)
                       + #2 * Math_cos (#3 / #2)) 2 |}
  /\ time_sign (#0 : float) = #1.
Proof.
  split; [lia |].
  destruct (time_mode_formula (#0 : float) #1 #2 #0 #0 (i := 3) ltac:(lia))
    as (Hy & _ & Hpos & _).
  split; [exact Hy | exact (Hpos eq_refl)].
Defined.

Lemma warp_metric_ranges_witness :
  let st := VisualizerV2.mkState (#0 : float) #0 #0 #10 #0 "warp" in
  (forall a : float, (approx_exp a <? #0) = false) /\
  ((VisualizerV2.shape (VisualizerV2.calculateWarpMetric st #3 #4) <? #0) = false
   /\ (#0 <? VisualizerV2.energyDensity (VisualizerV2.calculateWarpMetric st #3 #4)) = false).
Proof.
  intros st. split; [exact silent_engine_exp |].
  exact (warp_metric_ranges st #3 #4 silent_engine_exp).
Defined.

Lemma surface_radial_symmetry_witness :
  let st := VisualizerV2.mkState (#1 : float) #2 #3 #4 #0 "time" in
  ((-5 <= 3 <= 5)%Z /\ (-5 <= 4 <= 5)%Z /\ (-5 <= -5 <= 5)%Z /\ (-5 <= 0 <= 5)%Z
   /\ (3 * 3 + 4 * 4 = -5 * -5 + 0 * 0)%Z) /\
  exists z : float,
    nth_error (VisualizerV2.generate3DData st) (Z.to_nat ((3 + 5) * 11 + (4 + 5)))
      = Some (VisualizerV2.template3 (#3 * #20) (#4 * #20) (z * #20))
    /\ nth_error (VisualizerV2.generate3DData st) (Z.to_nat ((-5 + 5) * 11 + (0 + 5)))
      = Some (VisualizerV2.template3 (#(-5) * #20) (#0 * #20) (z * #20)).
Proof.
  intros st. split; [repeat split; lia |].
  exact (surface_radial_symmetry (#1 : float) #2 #3 #4 "time"
           (i := 3) (j := 4) (i' := -5) (j' := 0)
           ltac:(lia) ltac:(lia) ltac:(lia) ltac:(lia) eq_refl).
Defined.

Lemma warp_plot_is_surface_section_witness :
  let st := VisualizerV2.mkState (#0 : float) #0 #0 #1 #0 "warp" in
  (-5 <= 2 <= 5)%Z /\
  exists v : float,
    nth_error (VisualizerV2.generate2DData st) (Z.to_nat (2 + 10))
      = Some {| VisualizerV2.x := #2; VisualizerV2.y := toFixed v 2 |}
    /\ nth_error (VisualizerV2.generate3DData st) (Z.to_nat ((2 + 5) * 11 + (0 + 5)))
       = Some (VisualizerV2.template3 (#2 * #20) (#0 * #20) (v * #20)).
Proof.
  intros st. split; [lia |].
  exact (warp_plot_is_surface_section (#0 : float) #0 #0 #1 (i := 2) ltac:(lia)).
Defined.

Lemma render_projection_witness :
  let st := VisualizerV2.mkState (#0 : float) #0 #0 #0 #0 "tensor" in
  ((forall v : float, no_comma (shortest_numeral v) = true)
   /\ (forall k : Z, (-5 <= k <= 5)%Z ->
         integer_Number64 (RealModel.int_numeral (k * 20)) = #(k * 20))
   /\ (-5 <= 5 <= 5)%Z /\ (-5 <= -5 <= 5)%Z) /\
  exists (circle : SvgCircle.t float) (third : string),
    nth_error (map fields (VisualizerV2.generate3DData st))
              (Z.to_nat ((5 + 5) * 11 + (-5 + 5)))
      = Some ["100"; "-100"; third]
    /\ nth_error (renderSurface integer_Number64 st) (Z.to_nat ((5 + 5) * 11 + (-5 + 5)))
      = Some (Some circle)
    /\ SvgCircle.cx circle = #150
    /\ (-150 <= 20 * 5 - 10 * -5 <= 150)%Z
    /\ SvgCircle.cy circle = #(-50) + integer_Number64 third
    /\ SvgCircle.r circle = "1".
Proof.
  intros st.
  split; [split; [exact silent_engine_no_comma
                 | split; [exact integer_Number64_scaled | lia]] |].
  exact (render_projection integer_Number64 st (i := 5) (j := -5)
           silent_engine_no_comma integer_Number64_scaled ltac:(lia) ltac:(lia)).
Defined.
End DoubleInstances.
